(** * Futaba 8-MD-06INK VFD driver (ftb-8-md): command encoding and dispatch

    A shallow embedding of [include/ftb-8-md.h] and [ftb-8-md.c].

    - The [DisplayCommand] union is its 9-byte [raw] array; the bit-field
      members are read and written with explicit masks and shifts, at the
      bit positions the header documents (B7-B5 prefix, B4-B0 digit, ...).
    - The ESP-IDF collaborators (GPIO, FreeRTOS delay, SPI master, logging)
      are external: every call is recorded, in program order, in a trace,
      and the result of each fallible call is chosen by an environment that
      may look at the whole trace so far.
    - C [int] and [uint8_t] values are [Z]; [size_t] counts are [nat]. *)

From Stdlib Require Import ZArith List String Bool Lia.
Import ListNotations.
Open Scope Z_scope.

(** ** ESP-IDF types and constants used by the driver *)

Definition esp_err_t := Z.
Definition ESP_OK : esp_err_t := 0.
Definition ESP_FAIL : esp_err_t := -1.
Definition ESP_ERR_INVALID_ARG : esp_err_t := 0x102.

(** [spi_device_handle_t] is a pointer; [None] is [NULL]. *)
Definition spi_device_handle_t := option nat.
Definition NULL {A : Type} : option A := None.

Inductive gpio_mode_t := GPIO_MODE_DISABLE | GPIO_MODE_INPUT | GPIO_MODE_OUTPUT.
Inductive gpio_pullup_t := GPIO_PULLUP_DISABLE | GPIO_PULLUP_ENABLE.
Inductive gpio_pulldown_t := GPIO_PULLDOWN_DISABLE | GPIO_PULLDOWN_ENABLE.
Inductive gpio_int_type_t := GPIO_INTR_DISABLE | GPIO_INTR_ANYEDGE.

Record gpio_config_t := {
  pin_bit_mask : Z;
  mode : gpio_mode_t;
  pull_up_en : gpio_pullup_t;
  pull_down_en : gpio_pulldown_t;
  intr_type : gpio_int_type_t
}.

(** SPI_DEVICE_TXBIT_LSBFIRST | SPI_DEVICE_RXBIT_LSBFIRST *)
Definition SPI_DEVICE_BIT_LSBFIRST : Z := 3.

Record spi_device_interface_config_t := {
  clock_speed_hz : Z;
  spi_mode : Z;
  spics_io_num : Z;
  queue_size : Z;
  flags : Z
}.

(** [spi_transaction_t]: [length] is in bits, [tx_buffer] is the memory the
    pointer designates. *)
Module spi_transaction_t.
Record t := {
  length : nat;
  tx_buffer : list Z
}.

(** The bytes a transaction puts on the wire: the first [length / 8]
    bytes of the buffer. *)
Definition tx_bytes (trans : t) : list Z :=
  firstn (Nat.div (length trans) 8) (tx_buffer trans).
End spi_transaction_t.

(** ** Trace of collaborator calls *)

Inductive event :=
| EGpioConfig (io_conf : gpio_config_t) (ret : esp_err_t)
| EGpioSetLevel (pin : Z) (level : Z)
| ETaskDelayMs (ms : Z)
| ESpiBusAddDevice (host_id : Z) (dev_cfg : spi_device_interface_config_t)
                   (ret : esp_err_t) (handle : spi_device_handle_t)
| ESpiTransmit (handle : nat) (bytes : list Z) (ret : esp_err_t)
| ELogE (fmt : string) (err : esp_err_t)
| ELogI (msg : string).

Definition World := list event.

(** What the outside world answers. Each answer may depend on everything
    that happened before. *)
Record Collaborators := {
  gpio_config_result : World -> gpio_config_t -> esp_err_t;
  spi_bus_add_device_result :
    World -> Z -> spi_device_interface_config_t -> esp_err_t * spi_device_handle_t;
  spi_device_transmit_result : World -> nat -> list Z -> esp_err_t
}.

(** ** A state monad over the trace *)

Definition M (A : Type) : Type := World -> A * World.

Definition Return {A : Type} (a : A) : M A := fun w => (a, w).

Definition Bind {A B : Type} (m : M A) (k : A -> M B) : M B :=
  fun w => let (a, w') := m w in k a w'.

Declare Scope drv_scope.
Delimit Scope drv_scope with drv.
Notation "x <- m ;; k" := (Bind m (fun x => k))
  (at level 61, m at next level, right associativity) : drv_scope.
Notation "m ;;; k" := (Bind m (fun _ => k))
  (at level 61, right associativity) : drv_scope.
Open Scope drv_scope.

Definition emit (e : event) : M unit := fun w => (tt, w ++ [e]).

(** ** The [DisplayCommand] union *)

Module DisplayCommand.

(** [uint8_t raw[9]] *)
Definition t := list Z.

(** [DisplayCommand cmd = {0};] *)
Definition zero : t := repeat 0 9.

(** Conversion to [uint8_t]. *)
Definition uint8 (v : Z) : Z := v mod 256.

(** [a[i] = v]; the driver never indexes outside the array. *)
Fixpoint array_set (i : nat) (v : Z) (a : list Z) : list Z :=
  match a, i with
  | [], _ => []
  | _ :: rest, O => v :: rest
  | x :: rest, S i' => x :: array_set i' v rest
  end.

Definition get (i : nat) (cmd : t) : Z := nth i cmd 0.

(** Store [v] in the [width]-bit field that starts at bit [lo] of a byte:
    the value is truncated to the width, the other bits are kept. *)
Definition bitfield_store (lo width : Z) (v old : Z) : Z :=
  Z.lor (Z.ldiff old (Z.shiftl (Z.ones width) lo))
        (Z.shiftl (Z.land v (Z.ones width)) lo).

(** Read the [width]-bit field that starts at bit [lo]. *)
Definition bitfield_load (lo width : Z) (b : Z) : Z :=
  Z.land (Z.shiftr b lo) (Z.ones width).

Definition set_field (byte : nat) (lo width : Z) (v : Z) (cmd : t) : t :=
  array_set byte (bitfield_store lo width v (get byte cmd)) cmd.

(** dcram_write.byte1: [digit : 5] (B4-B0), [prefix : 3] (B7-B5);
    [chr[8]] are bytes 1..8. *)
Definition set_dcram_digit := set_field 0 0 5.
Definition set_dcram_prefix := set_field 0 5 3.
Definition set_dcram_chr (i : nat) (v : Z) : t -> t := array_set (1 + i) (uint8 v).

(** cgram_write.byte1: [addr : 3] (B2-B0), [reserved : 2], [prefix : 3];
    [data[5]] are bytes 1..5. *)
Definition set_cgram_addr := set_field 0 0 3.
Definition set_cgram_prefix := set_field 0 5 3.
Definition cgram_addr (cmd : t) : Z := bitfield_load 0 3 (get 0 cmd).
Definition cgram_prefix (cmd : t) : Z := bitfield_load 5 3 (get 0 cmd).
Definition cgram_data (cmd : t) : list Z := firstn 5 (skipn 1 cmd).

(** adram_write.byte1: [digit : 5], [reserved : 3] (holds the prefix);
    byte2: [pin : 4] (E3-E0), [reserved : 4]. *)
Definition set_adram_digit := set_field 0 0 5.
Definition set_adram_reserved := set_field 0 5 3.
Definition set_adram_pin := set_field 1 0 4.

(** ctrl: [prefix] is byte 0, [arg] is byte 1. *)
Definition set_ctrl_prefix (v : Z) : t -> t := array_set 0 (uint8 v).
Definition set_ctrl_arg (v : Z) : t -> t := array_set 1 (uint8 v).

(** [memset(&raw[off], v, n)] *)
Fixpoint memset (off : nat) (v : Z) (n : nat) (cmd : t) : t :=
  match n with
  | O => cmd
  | S n' => memset (S off) v n' (array_set off (uint8 v) cmd)
  end.

(** [memcpy(&raw[off], src, n)]; [src] is an array of [uint8_t]. A source
    shorter than [n] is outside the C semantics and reads 0 here. *)
Fixpoint memcpy (off : nat) (src : list Z) (n : nat) (cmd : t) : t :=
  match n with
  | O => cmd
  | S n' => memcpy (S off) (tl src) n' (array_set off (hd 0 src) cmd)
  end.

End DisplayCommand.

(** ** C strings *)

(** A [const char *] designates the characters in memory from the pointer
    on; [strlen] counts up to the first NUL (the end of the modelled memory
    counts as one). *)
Fixpoint strlen (s : list Z) : nat :=
  match s with
  | [] => O
  | c :: rest => if c =? 0 then O else S (strlen rest)
  end.

(** ** Driver constants *)

Definition FTB8MD_NUM_DIGITS : Z := 8.
Definition FTB8MD_MAX_DIMMING : Z := 240.
Definition FTB8MD_SPI_CLOCK_HZ : Z := 500 * 1000.

Definition CMD_PREFIX_DCRAM : Z := 0x01.
Definition CMD_PREFIX_CGRAM : Z := 0x02.
Definition CMD_PREFIX_ADRAM : Z := 0x03.
Definition CMD_PREFIX_URAM : Z := 0x04.

Definition CMD_DIGIT_SET : Z := 0xE0.
Definition CMD_DIMMING : Z := 0xE4.
Definition CMD_DISPLAY_ON : Z := 0xE8.
Definition CMD_DISPLAY_OFF : Z := 0xEA.
Definition CMD_MODE_NORMAL : Z := 0xEC.
Definition CMD_MODE_STANDBY : Z := 0xED.

(** The [gpio_config_t io_conf] initialiser of [ftb8md_device_register];
    [1ULL << reset_pin] is a 64-bit value. *)
Definition io_conf_for (reset_pin : Z) : gpio_config_t :=
  {| pin_bit_mask := Z.shiftl 1 reset_pin mod 2 ^ 64;
     mode := GPIO_MODE_OUTPUT;
     pull_up_en := GPIO_PULLUP_DISABLE;
     pull_down_en := GPIO_PULLDOWN_DISABLE;
     intr_type := GPIO_INTR_DISABLE |}.

(** The [spi_device_interface_config_t dev_cfg] initialiser of
    [ftb8md_device_register]; mode 3 is CPOL=1, CPHA=1. *)
Definition dev_cfg_for (cs_pin : Z) : spi_device_interface_config_t :=
  {| clock_speed_hz := FTB8MD_SPI_CLOCK_HZ;
     spi_mode := 3;
     spics_io_num := cs_pin;
     queue_size := 1;
     flags := SPI_DEVICE_BIT_LSBFIRST |}.

(** ** The driver *)

Section Driver.

Variable E : Collaborators.

(** *** Collaborator calls *)

Definition gpio_config (io_conf : gpio_config_t) : M esp_err_t :=
  fun w => let r := gpio_config_result E w io_conf in
           (r, w ++ [EGpioConfig io_conf r]).

(** The driver ignores the value [gpio_set_level] returns. *)
Definition gpio_set_level (pin level : Z) : M unit :=
  emit (EGpioSetLevel pin level).

(** [vTaskDelay(pdMS_TO_TICKS(ms))]: the requested duration, in
    milliseconds; the tick rate is FreeRTOS configuration. *)
Definition vTaskDelay_ms (ms : Z) : M unit :=
  emit (ETaskDelayMs ms).

Definition spi_bus_add_device (host_id : Z) (dev_cfg : spi_device_interface_config_t)
  : M (esp_err_t * spi_device_handle_t) :=
  fun w => let r := spi_bus_add_device_result E w host_id dev_cfg in
           (r, w ++ [ESpiBusAddDevice host_id dev_cfg (fst r) (snd r)]).

Definition spi_device_transmit (handle : nat) (trans : spi_transaction_t.t)
  : M esp_err_t :=
  fun w => let bytes := spi_transaction_t.tx_bytes trans in
           let r := spi_device_transmit_result E w handle bytes in
           (r, w ++ [ESpiTransmit handle bytes r]).

Definition ESP_LOGE (fmt : string) (err : esp_err_t) : M unit :=
  emit (ELogE fmt err).

Definition ESP_LOGI (msg : string) : M unit :=
  emit (ELogI msg).

(** *** ftb-8-md.c *)

Definition ftb8md_send_command (handle : spi_device_handle_t)
           (cmd : option DisplayCommand.t) (len : nat) : M esp_err_t :=
  match handle, cmd with
  | Some h, Some raw =>
      if Nat.eqb len 0 then Return ESP_ERR_INVALID_ARG
      else
        spi_device_transmit h
          {| spi_transaction_t.length := len * 8;
             spi_transaction_t.tx_buffer := raw |}
  | _, _ => Return ESP_ERR_INVALID_ARG
  end.

Definition digit_out_of_range (digit : Z) : bool :=
  (digit <? 0) || (digit >=? FTB8MD_NUM_DIGITS).

Definition char_index_out_of_range (char_index : Z) : bool :=
  (char_index <? 0) || (char_index >? 7).

(** [for (size_t i = 0; i < chars_to_write; i++) chr[i] = (uint8_t)str[i];]
    with [n] iterations left. *)
Fixpoint copy_chars (str : list Z) (i n : nat) (cmd : DisplayCommand.t)
  : DisplayCommand.t :=
  match n with
  | O => cmd
  | S n' => copy_chars str (S i) n' (DisplayCommand.set_dcram_chr i (nth i str 0) cmd)
  end.

Definition ftb8md_show_string (handle : spi_device_handle_t) (digit : Z)
           (str : option (list Z)) : M esp_err_t :=
  match handle, str with
  | Some _, Some s =>
      if digit_out_of_range digit then Return ESP_ERR_INVALID_ARG
      else
        let cmd := DisplayCommand.zero in
        let cmd := DisplayCommand.set_dcram_prefix CMD_PREFIX_DCRAM cmd in
        let cmd := DisplayCommand.set_dcram_digit digit cmd in
        let max_chars := Z.to_nat (FTB8MD_NUM_DIGITS - digit) in
        let str_len := strlen s in
        let chars_to_write :=
          if Nat.ltb str_len max_chars then str_len else max_chars in
        let cmd := copy_chars s 0 chars_to_write cmd in
        ftb8md_send_command handle (Some cmd) (1 + chars_to_write)
  | _, _ => Return ESP_ERR_INVALID_ARG
  end.

Definition ftb8md_set_dimming (handle : spi_device_handle_t) (level : Z)
  : M esp_err_t :=
  match handle with
  | None => Return ESP_ERR_INVALID_ARG
  | Some _ =>
      (* the argument arrives converted to the parameter's type, uint8_t *)
      let level := DisplayCommand.uint8 level in
      let cmd := DisplayCommand.zero in
      let cmd := DisplayCommand.set_ctrl_prefix CMD_DIMMING cmd in
      let cmd := DisplayCommand.set_ctrl_arg
                   (if level >? FTB8MD_MAX_DIMMING then FTB8MD_MAX_DIMMING else level)
                   cmd in
      ftb8md_send_command handle (Some cmd) 2
  end.

Definition ftb8md_enter_standby (handle : spi_device_handle_t) (standby : bool)
  : M esp_err_t :=
  match handle with
  | None => Return ESP_ERR_INVALID_ARG
  | Some _ =>
      let cmd := DisplayCommand.zero in
      let cmd := DisplayCommand.set_ctrl_prefix
                   (if standby then CMD_MODE_STANDBY else CMD_MODE_NORMAL) cmd in
      ftb8md_send_command handle (Some cmd) 2
  end.

Definition ftb8md_set_display_power (handle : spi_device_handle_t) (on : bool)
  : M esp_err_t :=
  match handle with
  | None => Return ESP_ERR_INVALID_ARG
  | Some _ =>
      let cmd := DisplayCommand.zero in
      let cmd := DisplayCommand.set_ctrl_prefix
                   (if on then CMD_DISPLAY_ON else CMD_DISPLAY_OFF) cmd in
      ftb8md_send_command handle (Some cmd) 2
  end.

Definition ftb8md_set_dot (handle : spi_device_handle_t) (digit : Z) (dot_on : bool)
  : M esp_err_t :=
  match handle with
  | None => Return ESP_ERR_INVALID_ARG
  | Some _ =>
      if digit_out_of_range digit then Return ESP_ERR_INVALID_ARG
      else
        let cmd := DisplayCommand.zero in
        let cmd := DisplayCommand.set_adram_reserved CMD_PREFIX_ADRAM cmd in
        let cmd := DisplayCommand.set_adram_digit digit cmd in
        let cmd := DisplayCommand.set_adram_pin (if dot_on then 0x01 else 0x00) cmd in
        ftb8md_send_command handle (Some cmd) 2
  end.

Definition ftb8md_set_segment (handle : spi_device_handle_t) (digit : Z)
           (segments : Z) : M esp_err_t :=
  match handle with
  | None => Return ESP_ERR_INVALID_ARG
  | Some _ =>
      if digit_out_of_range digit then Return ESP_ERR_INVALID_ARG
      else
        let cmd := DisplayCommand.zero in
        let cmd := DisplayCommand.set_dcram_prefix CMD_PREFIX_DCRAM cmd in
        let cmd := DisplayCommand.set_dcram_digit digit cmd in
        let cmd := DisplayCommand.set_dcram_chr 0 segments cmd in
        ftb8md_send_command handle (Some cmd) 2
  end.

(** [for (int i = ...; i < FTB8MD_NUM_DIGITS; i++)] of [ftb8md_clear_display],
    with [n] iterations left. *)
Fixpoint clear_dots (handle : spi_device_handle_t) (i : Z) (n : nat)
  : M esp_err_t :=
  match n with
  | O => Return ESP_OK
  | S n' =>
      ret <- ftb8md_set_dot handle i false ;;
      if negb (ret =? ESP_OK) then Return ret
      else clear_dots handle (i + 1) n'
  end.

Definition ftb8md_clear_display (handle : spi_device_handle_t) : M esp_err_t :=
  match handle with
  | None => Return ESP_ERR_INVALID_ARG
  | Some _ =>
      let cmd := DisplayCommand.zero in
      let cmd := DisplayCommand.set_dcram_prefix CMD_PREFIX_DCRAM cmd in
      let cmd := DisplayCommand.set_dcram_digit 0 cmd in
      let cmd := DisplayCommand.memset 1 0x20 (Z.to_nat FTB8MD_NUM_DIGITS) cmd in
      ret <- ftb8md_send_command handle (Some cmd) (1 + Z.to_nat FTB8MD_NUM_DIGITS) ;;
      if negb (ret =? ESP_OK) then Return ret
      else clear_dots handle 0 (Z.to_nat (FTB8MD_NUM_DIGITS - 0))
  end.

Definition ftb8md_write_custom_char (handle : spi_device_handle_t)
           (char_index : Z) (grid_data : option (list Z)) : M esp_err_t :=
  match handle, grid_data with
  | Some _, Some data =>
      if char_index_out_of_range char_index then Return ESP_ERR_INVALID_ARG
      else
        let cmd := DisplayCommand.zero in
        let cmd := DisplayCommand.set_cgram_prefix CMD_PREFIX_CGRAM cmd in
        let cmd := DisplayCommand.set_cgram_addr char_index cmd in
        let cmd := DisplayCommand.memcpy 1 data 5 cmd in
        ftb8md_send_command handle (Some cmd) 6
  | _, _ => Return ESP_ERR_INVALID_ARG
  end.

Definition ftb8md_set_addressed_char (handle : spi_device_handle_t)
           (digit char_index : Z) : M esp_err_t :=
  match handle with
  | None => Return ESP_ERR_INVALID_ARG
  | Some _ =>
      if digit_out_of_range digit then Return ESP_ERR_INVALID_ARG
      else if char_index_out_of_range char_index then Return ESP_ERR_INVALID_ARG
      else
        let cmd := DisplayCommand.zero in
        let cmd := DisplayCommand.set_dcram_prefix CMD_PREFIX_DCRAM cmd in
        let cmd := DisplayCommand.set_dcram_digit digit cmd in
        let cmd := DisplayCommand.set_dcram_chr 0 char_index cmd in
        ftb8md_send_command handle (Some cmd) 2
  end.

(** [ftb8md_device_register] from [spi_bus_add_device] on. *)
Definition register_device (host_id cs_pin : Z) : M spi_device_handle_t :=
  let dev_cfg := dev_cfg_for cs_pin in
  r <- spi_bus_add_device host_id dev_cfg ;;
  let (ret, handle) := r in
  if negb (ret =? ESP_OK) then
    ESP_LOGE "Failed to add SPI device: %s" ret ;;;
    Return NULL
  else
    let cmd := DisplayCommand.zero in
    let cmd := DisplayCommand.set_ctrl_prefix CMD_DIGIT_SET cmd in
    let cmd := DisplayCommand.set_ctrl_arg (FTB8MD_NUM_DIGITS - 1) cmd in
    ret <- ftb8md_send_command handle (Some cmd) 2 ;;
    (if negb (ret =? ESP_OK)
     then ESP_LOGE "Failed to set digit count: %s" ret
     else Return tt) ;;;
    _ <- ftb8md_set_dimming handle FTB8MD_MAX_DIMMING ;;
    let cmd := DisplayCommand.set_ctrl_prefix CMD_DISPLAY_ON cmd in
    ret <- ftb8md_send_command handle (Some cmd) 2 ;;
    (if negb (ret =? ESP_OK)
     then ESP_LOGE "Failed to turn on display: %s" ret
     else Return tt) ;;;
    ESP_LOGI "VFD display initialized successfully" ;;;
    Return handle.

Definition ftb8md_device_register (host_id cs_pin reset_pin : Z)
  : M spi_device_handle_t :=
  if reset_pin >=? 0 then
    let io_conf := io_conf_for reset_pin in
    ret <- gpio_config io_conf ;;
    if negb (ret =? ESP_OK) then
      ESP_LOGE "Failed to configure reset pin: %s" ret ;;;
      Return NULL
    else
      gpio_set_level reset_pin 0 ;;;
      vTaskDelay_ms 10 ;;;
      gpio_set_level reset_pin 1 ;;;
      vTaskDelay_ms 10 ;;;
      register_device host_id cs_pin
  else register_device host_id cs_pin.

End Driver.

(** ** Sample environments *)

(** Transmissions already attempted in a trace. *)
Fixpoint transmit_count (w : World) : nat :=
  match w with
  | [] => O
  | ESpiTransmit _ _ _ :: rest => S (transmit_count rest)
  | _ :: rest => transmit_count rest
  end.

(** Every collaborator call succeeds; the bus hands out device 1. *)
Definition all_succeed : Collaborators :=
  {| gpio_config_result := fun _ _ => ESP_OK;
     spi_bus_add_device_result := fun _ _ _ => (ESP_OK, Some 1%nat);
     spi_device_transmit_result := fun _ _ _ => ESP_OK |}.

(** As [all_succeed], but the transmission after [k] earlier ones fails
    with [err]. *)
Definition transmit_fails_at (k : nat) (err : esp_err_t) : Collaborators :=
  {| gpio_config_result := fun _ _ => ESP_OK;
     spi_bus_add_device_result := fun _ _ _ => (ESP_OK, Some 1%nat);
     spi_device_transmit_result :=
       fun w _ _ => if Nat.eqb (transmit_count w) k then err else ESP_OK |}.

(** ** Packets as the controller's data sheet lays them out *)

(** DCRAM write: prefix 001 in B7-B5, digit in B4-B0, then the characters. *)
Definition dcram_packet (digit : Z) (chars : list Z) : list Z :=
  (Z.shiftl CMD_PREFIX_DCRAM 5 + digit) :: chars.

(** ADRAM write: prefix 011 in B7-B5, digit in B4-B0, then the pin nibble;
    pin E0 is the decimal point. *)
Definition dot_packet (digit : Z) (dot_on : bool) : list Z :=
  [Z.shiftl CMD_PREFIX_ADRAM 5 + digit; if dot_on then 1 else 0].

(** A display clear: 8 spaces from digit 0 on, then the dot of each digit
    off, left to right. *)
Definition clear_packets : list (list Z) :=
  dcram_packet 0 (repeat 0x20 8)
  :: map (fun digit => dot_packet digit false) [0; 1; 2; 3; 4; 5; 6; 7].

(** The default configuration of a fresh device: 8 digits (argument 7),
    full brightness, display on. The display-on packet carries the argument
    byte left in the command by the digit-count step. *)
Definition digit_count_packet : list Z := [CMD_DIGIT_SET; FTB8MD_NUM_DIGITS - 1].
Definition max_dimming_packet : list Z := [CMD_DIMMING; FTB8MD_MAX_DIMMING].
Definition display_on_packet : list Z := [CMD_DISPLAY_ON; FTB8MD_NUM_DIGITS - 1].

(** Successful transmissions of the given packets, in order. *)
Definition ok_events (h : nat) (pkts : list (list Z)) : list event :=
  map (fun p => ESpiTransmit h p ESP_OK) pkts.

(** Hand the packets to the transport one after the other and stop at the
    first one the transport refuses, returning its error. *)
Fixpoint send_until_failure (E : Collaborators) (h : nat) (pkts : list (list Z))
  : M esp_err_t :=
  match pkts with
  | [] => Return ESP_OK
  | p :: rest =>
      fun w =>
        let r := spi_device_transmit_result E w h p in
        let w' := w ++ [ESpiTransmit h p r] in
        if negb (r =? ESP_OK) then (r, w') else send_until_failure E h rest w'
  end.

(** The packets handed to the transport in a trace, in order. *)
Fixpoint transmitted (w : World) : list (list Z) :=
  match w with
  | [] => []
  | ESpiTransmit _ bytes _ :: rest => bytes :: transmitted rest
  | _ :: rest => transmitted rest
  end.

(** The error-level log lines of a trace. *)
Fixpoint logged_errors (w : World) : list (string * esp_err_t) :=
  match w with
  | [] => []
  | ELogE fmt err :: rest => (fmt, err) :: logged_errors rest
  | _ :: rest => logged_errors rest
  end.

(** ** The public interface as data *)

Inductive api_call :=
| call_device_register (host_id cs_pin reset_pin : Z)
| call_show_string (handle : spi_device_handle_t) (digit : Z) (str : option (list Z))
| call_set_dimming (handle : spi_device_handle_t) (level : Z)
| call_enter_standby (handle : spi_device_handle_t) (standby : bool)
| call_set_display_power (handle : spi_device_handle_t) (on : bool)
| call_set_dot (handle : spi_device_handle_t) (digit : Z) (dot_on : bool)
| call_set_segment (handle : spi_device_handle_t) (digit : Z) (segments : Z)
| call_clear_display (handle : spi_device_handle_t)
| call_write_custom_char (handle : spi_device_handle_t) (char_index : Z)
                         (grid_data : option (list Z))
| call_set_addressed_char (handle : spi_device_handle_t) (digit char_index : Z).

(** The trace after a call. *)
Definition run (E : Collaborators) (c : api_call) (w : World) : World :=
  match c with
  | call_device_register host_id cs_pin reset_pin =>
      snd (ftb8md_device_register E host_id cs_pin reset_pin w)
  | call_show_string handle digit str => snd (ftb8md_show_string E handle digit str w)
  | call_set_dimming handle level => snd (ftb8md_set_dimming E handle level w)
  | call_enter_standby handle standby => snd (ftb8md_enter_standby E handle standby w)
  | call_set_display_power handle on => snd (ftb8md_set_display_power E handle on w)
  | call_set_dot handle digit dot_on => snd (ftb8md_set_dot E handle digit dot_on w)
  | call_set_segment handle digit segments =>
      snd (ftb8md_set_segment E handle digit segments w)
  | call_clear_display handle => snd (ftb8md_clear_display E handle w)
  | call_write_custom_char handle char_index grid_data =>
      snd (ftb8md_write_custom_char E handle char_index grid_data w)
  | call_set_addressed_char handle digit char_index =>
      snd (ftb8md_set_addressed_char E handle digit char_index w)
  end.

(** The payload each packet of a call carries after its command byte, by
    the layout table: the characters that fit for a DCRAM write, 5 pattern
    bytes for CGRAM, 1 byte for ADRAM and for a control command. *)
Definition payload_used (c : api_call) : list nat :=
  match c with
  | call_device_register _ _ _ => [1; 1; 1]%nat
  | call_show_string _ digit (Some s) => [Nat.min (strlen s) (Z.to_nat (8 - digit))]
  | call_show_string _ _ None => []
  | call_clear_display _ => (8 :: repeat 1 8)%nat
  | call_write_custom_char _ _ _ => [5%nat]
  | _ => [1%nat]
  end.

Definition non_null {A : Type} (p : option A) : bool :=
  match p with Some _ => true | None => false end.

Definition in_0_7 (v : Z) : bool := (0 <=? v) && (v <=? 7).

(** The arguments a call accepts. *)
Definition args_valid (c : api_call) : bool :=
  match c with
  | call_device_register _ _ _ => true
  | call_show_string handle digit str =>
      non_null handle && in_0_7 digit && non_null str
  | call_set_dimming handle _ => non_null handle
  | call_enter_standby handle _ => non_null handle
  | call_set_display_power handle _ => non_null handle
  | call_set_dot handle digit _ => non_null handle && in_0_7 digit
  | call_set_segment handle digit _ => non_null handle && in_0_7 digit
  | call_clear_display handle => non_null handle
  | call_write_custom_char handle char_index grid_data =>
      non_null handle && in_0_7 char_index && non_null grid_data
  | call_set_addressed_char handle digit char_index =>
      non_null handle && in_0_7 digit && in_0_7 char_index
  end.

(** No collaborator call ever fails, and a bound device has a handle. *)
Definition collaborators_succeed (E : Collaborators) : Prop :=
  (forall w io_conf, gpio_config_result E w io_conf = ESP_OK)
  /\ (forall w host_id dev_cfg,
        exists h, spi_bus_add_device_result E w host_id dev_cfg = (ESP_OK, Some h))
  /\ (forall w h bytes, spi_device_transmit_result E w h bytes = ESP_OK).

(** What the events [evs] a call appends to the trace must satisfy: every
    packet is 1 to 9 bytes long; packet by packet, the size is 1 plus the
    payload of the layout, for as many packets as were sent; and all of
    them were sent when the arguments are valid and nothing fails. *)
Definition packet_sizes_ok (E : Collaborators) (c : api_call) (evs : list event)
  : Prop :=
  Forall (fun p => (1 <= List.length p <= 9)%nat) (transmitted evs)
  /\ (exists rest,
        map S (payload_used c) = map (@List.length Z) (transmitted evs) ++ rest)
  /\ (collaborators_succeed E -> args_valid c = true ->
      map (@List.length Z) (transmitted evs) = map S (payload_used c)).

(** ** Results and handles of calls *)

(** The handle a call is given ([NULL] for registration, which makes one). *)
Definition handle_of (c : api_call) : spi_device_handle_t :=
  match c with
  | call_device_register _ _ _ => NULL
  | call_show_string handle _ _ => handle
  | call_set_dimming handle _ => handle
  | call_enter_standby handle _ => handle
  | call_set_display_power handle _ => handle
  | call_set_dot handle _ _ => handle
  | call_set_segment handle _ _ => handle
  | call_clear_display handle => handle
  | call_write_custom_char handle _ _ => handle
  | call_set_addressed_char handle _ _ => handle
  end.

(** The [esp_err_t] a call returns (registration returns a handle instead). *)
Definition call_result (E : Collaborators) (c : api_call) (w : World)
  : option esp_err_t :=
  match c with
  | call_device_register _ _ _ => None
  | call_show_string handle digit str =>
      Some (fst (ftb8md_show_string E handle digit str w))
  | call_set_dimming handle level => Some (fst (ftb8md_set_dimming E handle level w))
  | call_enter_standby handle standby =>
      Some (fst (ftb8md_enter_standby E handle standby w))
  | call_set_display_power handle on =>
      Some (fst (ftb8md_set_display_power E handle on w))
  | call_set_dot handle digit dot_on =>
      Some (fst (ftb8md_set_dot E handle digit dot_on w))
  | call_set_segment handle digit segments =>
      Some (fst (ftb8md_set_segment E handle digit segments w))
  | call_clear_display handle => Some (fst (ftb8md_clear_display E handle w))
  | call_write_custom_char handle char_index grid_data =>
      Some (fst (ftb8md_write_custom_char E handle char_index grid_data w))
  | call_set_addressed_char handle digit char_index =>
      Some (fst (ftb8md_set_addressed_char E handle digit char_index w))
  end.

(** The first bytes the driver has a use for: a DCRAM, CGRAM or ADRAM
    prefix over an address 0..7 with the other bits clear, or one of the
    six control opcodes. *)
Definition is_command_byte (b : Z) : bool :=
  ((0x20 <=? b) && (b <=? 0x27))
  || ((0x40 <=? b) && (b <=? 0x47))
  || ((0x60 <=? b) && (b <=? 0x67))
  || existsb (Z.eqb b)
       [CMD_DIGIT_SET; CMD_DIMMING; CMD_DISPLAY_ON; CMD_DISPLAY_OFF;
        CMD_MODE_NORMAL; CMD_MODE_STANDBY].

Definition is_byte (v : Z) : Prop := 0 <= v < 256.

(** A packet that starts with a command byte and holds bytes only. *)
Definition packet_well_formed (p : list Z) : Prop :=
  is_command_byte (hd 0 p) = true /\ Forall is_byte p.

(** The bytes a caller hands over without a conversion: the pattern of
    [ftb8md_write_custom_char], read through a [const uint8_t *]. *)
Definition caller_bytes_ok (c : api_call) : Prop :=
  match c with
  | call_write_custom_char _ _ (Some data) => Forall is_byte data
  | _ => True
  end.

(** Events that are neither bus traffic nor log lines. *)
Fixpoint gpio_and_delay_events (w : World) : list event :=
  match w with
  | [] => []
  | EGpioConfig io_conf ret :: rest => EGpioConfig io_conf ret :: gpio_and_delay_events rest
  | EGpioSetLevel pin level :: rest => EGpioSetLevel pin level :: gpio_and_delay_events rest
  | ETaskDelayMs ms :: rest => ETaskDelayMs ms :: gpio_and_delay_events rest
  | _ :: rest => gpio_and_delay_events rest
  end.

(** The device a transmission went to. *)
Fixpoint transmit_handles (w : World) : list nat :=
  match w with
  | [] => []
  | ESpiTransmit h _ _ :: rest => h :: transmit_handles rest
  | _ :: rest => transmit_handles rest
  end.

(** ** C library functions the example programs use *)

(** The characters of a string literal, with its terminating NUL. *)
Definition c_str (s : string) : list Z :=
  map (fun a => Z.of_nat (Ascii.nat_of_ascii a)) (list_ascii_of_string s) ++ [0].

(** The decimal digits of a non-negative [int], most significant first, as
    ASCII codes; an [int] has at most 10 of them. *)
Fixpoint decimal_digits (fuel : nat) (v : Z) (acc : list Z) : list Z :=
  match fuel with
  | O => acc
  | S fuel' =>
      let acc' := (48 + v mod 10) :: acc in
      if v / 10 =? 0 then acc' else decimal_digits fuel' (v / 10) acc'
  end.

(** printf's [%<width>d] ([zero_pad = false], padded with spaces on the
    left) and [%0<width>d] ([zero_pad = true], padded with zeros after the
    sign). *)
Definition format_d (zero_pad : bool) (width : nat) (v : Z) : list Z :=
  let digits := decimal_digits 10 (Z.abs v) [] in
  let sign := if v <? 0 then [45] else [] in
  let pad := (width - List.length sign - List.length digits)%nat in
  if zero_pad then sign ++ repeat 48 pad ++ digits
  else repeat 32 pad ++ sign ++ digits.

(** [snprintf(buf, size, ...)] for [size > 0]: at most [size - 1]
    characters of the formatted text, then a NUL. *)
Definition snprintf (size : nat) (formatted : list Z) : list Z :=
  firstn (size - 1) formatted ++ [0].

(** [strncpy(dst, src, n)]: the characters of [src] up to its NUL, at most
    [n], then NULs up to [n] bytes. *)
Definition strncpy (src : list Z) (n : nat) : list Z :=
  let k := Nat.min (strlen src) n in
  firstn k src ++ repeat 0 (n - k)%nat.

(** The fields of [struct tm] the clock reads. *)
Record tm := {
  tm_sec : Z;
  tm_min : Z;
  tm_hour : Z;
  tm_mday : Z;
  tm_mon : Z;
  tm_year : Z
}.

(** ** examples/clock/main/main.c *)

(** [display_mode_t] *)
Definition DISPLAY_MODE_TIME_24H : Z := 0.
Definition DISPLAY_MODE_TIME_12H : Z := 1.
Definition DISPLAY_MODE_DATE : Z := 2.
Definition DISPLAY_MODE_MAX : Z := 3.

(** The local variables of [app_main] that live across loop iterations. *)
Record clock_state := {
  current_mode : Z;
  mode_counter : Z;
  blink_state : bool
}.

Section Examples.

Variable E : Collaborators.

(** The global [vfd_handle] of the clock, the local [vfd] of the others. *)
Variable vfd_handle : spi_device_handle_t.

Definition display_time_24h (timeinfo : tm) (blink_colon : bool) : M unit :=
  let time_str :=
    snprintf 9 (format_d true 2 (tm_hour timeinfo)
                ++ format_d true 2 (tm_min timeinfo)
                ++ format_d true 2 (tm_sec timeinfo)
                ++ [32; 32]) in
  ftb8md_show_string E vfd_handle 0 (Some time_str) ;;;
  if blink_colon then
    ftb8md_set_dot E vfd_handle 1 true ;;;
    ftb8md_set_dot E vfd_handle 3 true ;;;
    Return tt
  else
    ftb8md_set_dot E vfd_handle 1 false ;;;
    ftb8md_set_dot E vfd_handle 3 false ;;;
    Return tt.

Definition display_time_12h (timeinfo : tm) (blink_colon : bool) : M unit :=
  let hour := tm_hour timeinfo in
  let ampm := [65; 77] in
  let '(hour, ampm) :=
    if hour >=? 12 then
      (if hour >? 12 then hour - 12 else hour, [80; 77])
    else (hour, ampm) in
  let hour := if hour =? 0 then 12 else hour in
  let time_str :=
    snprintf 9 (format_d false 2 hour
                ++ format_d true 2 (tm_min timeinfo)
                ++ ampm
                ++ [32; 32]) in
  ftb8md_show_string E vfd_handle 0 (Some time_str) ;;;
  if blink_colon then
    ftb8md_set_dot E vfd_handle 1 true ;;; Return tt
  else
    ftb8md_set_dot E vfd_handle 1 false ;;; Return tt.

Definition display_date (timeinfo : tm) : M unit :=
  let date_str :=
    snprintf 9 (format_d true 2 (tm_mday timeinfo)
                ++ format_d true 2 (tm_mon timeinfo + 1)
                ++ format_d true 4 (tm_year timeinfo + 1900)) in
  ftb8md_show_string E vfd_handle 0 (Some date_str) ;;;
  ftb8md_set_dot E vfd_handle 1 true ;;;
  ftb8md_set_dot E vfd_handle 3 true ;;;
  Return tt.

(** [for (int i = ...; i < 8; i++) ftb8md_set_dot(vfd_handle, i, false);]
    with [n] iterations left; the results are dropped. *)
Fixpoint clear_previous_dots (i : Z) (n : nat) : M unit :=
  match n with
  | O => Return tt
  | S n' => ftb8md_set_dot E vfd_handle i false ;;; clear_previous_dots (i + 1) n'
  end.

(** One round of the [while (1)] loop of the clock's [app_main], for the
    time [timeinfo] that [localtime_r] gave in this round. *)
Definition clock_round (timeinfo : tm) (st : clock_state) : M clock_state :=
  clear_previous_dots 0 8 ;;;
  (if current_mode st =? DISPLAY_MODE_TIME_24H
   then display_time_24h timeinfo (blink_state st)
   else if current_mode st =? DISPLAY_MODE_TIME_12H
   then display_time_12h timeinfo (blink_state st)
   else if current_mode st =? DISPLAY_MODE_DATE
   then display_date timeinfo
   else Return tt) ;;;
  let blink_state' := negb (blink_state st) in
  let mode_counter' := mode_counter st + 1 in
  st' <- (if mode_counter' >=? 20 then
            let current_mode' := (current_mode st + 1) mod DISPLAY_MODE_MAX in
            ftb8md_clear_display E vfd_handle ;;;
            (if current_mode' =? DISPLAY_MODE_TIME_24H
             then _ <- ftb8md_show_string E vfd_handle 0 (Some (c_str "24H TIME")) ;;
                  Return tt
             else if current_mode' =? DISPLAY_MODE_TIME_12H
             then _ <- ftb8md_show_string E vfd_handle 0 (Some (c_str "12H TIME")) ;;
                  Return tt
             else if current_mode' =? DISPLAY_MODE_DATE
             then _ <- ftb8md_show_string E vfd_handle 0 (Some (c_str "  DATE  ")) ;;
                  Return tt
             else Return tt) ;;;
            vTaskDelay_ms 1000 ;;;
            Return {| current_mode := current_mode';
                      mode_counter := 0;
                      blink_state := blink_state' |}
          else
            Return {| current_mode := current_mode st;
                      mode_counter := mode_counter';
                      blink_state := blink_state' |}) ;;
  vTaskDelay_ms 500 ;;;
  Return st'.

(** The first [n] rounds of the loop; [times k] is the time read in round
    [k]. *)
Fixpoint clock_rounds (times : nat -> tm) (k n : nat) (st : clock_state)
  : M clock_state :=
  match n with
  | O => Return st
  | S n' => st' <- clock_round (times k) st ;; clock_rounds times (S k) n' st'
  end.

(** ** examples/basic/main/main.c *)

(** The body of the scrolling loop, from index [i] on, with [n] iterations
    left. *)
Fixpoint scroll_from (scroll_text : list Z) (i n : nat) : M unit :=
  match n with
  | O => Return tt
  | S n' =>
      let display_buf := strncpy (skipn i scroll_text) 8 ++ [0] in
      ftb8md_show_string E vfd_handle 0 (Some display_buf) ;;;
      vTaskDelay_ms 200 ;;;
      scroll_from scroll_text (S i) n'
  end.

(** [for (size_t i = 0; i < text_len - 7; i++) ...]: the bound is computed
    in [size_t], 32 bits wide on the target. *)
Definition scroll_text_demo (scroll_text : list Z) : M unit :=
  let text_len := strlen scroll_text in
  scroll_from scroll_text 0 (Z.to_nat ((Z.of_nat text_len - 7) mod 2 ^ 32)).

End Examples.

(** The text the basic example scrolls. *)
Definition basic_scroll_text : list Z :=
  c_str "   FUTABA 8-MD-06INK VFD DISPLAY DEMO   ".

(** A sample time: 30 January 2024, 17:05:09. *)
Definition sample_time : tm :=
  {| tm_sec := 9; tm_min := 5; tm_hour := 17;
     tm_mday := 30; tm_mon := 0; tm_year := 124 |}.

(** The state the clock's loop starts in. *)
Definition clock_initial_state : clock_state :=
  {| current_mode := DISPLAY_MODE_TIME_24H; mode_counter := 0; blink_state := true |}.

(** What a round does to the loop's variables, whatever happens on the
    bus. *)
Definition next_clock_state (st : clock_state) : clock_state :=
  if mode_counter st + 1 >=? 20 then
    {| current_mode := (current_mode st + 1) mod DISPLAY_MODE_MAX;
       mode_counter := 0;
       blink_state := negb (blink_state st) |}
  else
    {| current_mode := current_mode st;
       mode_counter := mode_counter st + 1;
       blink_state := negb (blink_state st) |}.

(** Case split on a value known to lie in 0..7. *)
Ltac cases_0_7 H :=
  match type of H with
  | 0 <= ?d <= 7 =>
      assert (d = 0 \/ d = 1 \/ d = 2 \/ d = 3 \/ d = 4 \/ d = 5 \/ d = 6 \/ d = 7)
        as Hcases by lia;
      clear H; repeat (destruct Hcases as [Hcases|Hcases]); subst d
  end.

(** ** Arrays and bit fields *)

Import DisplayCommand.

Lemma array_set_length i v a : List.length (array_set i v a) = List.length a.
Proof.
  revert i; induction a as [|x a IH]; intros [|i]; simpl; auto.
Qed.

Lemma array_set_app pre x rest i v :
  List.length pre = i -> array_set i v (pre ++ x :: rest) = pre ++ v :: rest.
Proof.
  revert i; induction pre as [|y pre IH]; intros i Hi; simpl in *; subst; auto.
  simpl. now rewrite IH.
Qed.

Lemma uint8_small v : 0 <= v < 256 -> uint8 v = v.
Proof. intros; unfold uint8; now apply Z.mod_small. Qed.

Lemma map_uint8_bytes l : Forall (fun c => 0 <= c < 256) l -> map uint8 l = l.
Proof.
  induction 1 as [|c l Hc _ IH]; simpl; [reflexivity|].
  now rewrite IH, uint8_small.
Qed.

(** The first byte of a DCRAM write and the rest of the zeroed command. *)
Lemma dcram_header digit :
  0 <= digit <= 7 ->
  set_dcram_digit digit (set_dcram_prefix CMD_PREFIX_DCRAM zero)
  = (32 + digit) :: repeat 0 8.
Proof. intros H; cases_0_7 H; reflexivity. Qed.

Lemma adram_header digit :
  0 <= digit <= 7 ->
  set_adram_digit digit (set_adram_reserved CMD_PREFIX_ADRAM zero)
  = (96 + digit) :: repeat 0 8.
Proof. intros H; cases_0_7 H; reflexivity. Qed.

Lemma cgram_header char_index :
  0 <= char_index <= 7 ->
  set_cgram_addr char_index (set_cgram_prefix CMD_PREFIX_CGRAM zero)
  = (64 + char_index) :: repeat 0 8.
Proof. intros H; cases_0_7 H; reflexivity. Qed.

Lemma digit_in_range digit : 0 <= digit <= 7 -> digit_out_of_range digit = false.
Proof.
  intros H; unfold digit_out_of_range, FTB8MD_NUM_DIGITS.
  rewrite Z.geb_leb.
  destruct (Z.ltb_spec digit 0), (Z.leb_spec 8 digit); simpl; auto; lia.
Qed.

Lemma digit_not_in_range digit :
  digit < 0 \/ 7 < digit -> digit_out_of_range digit = true.
Proof.
  intros H; unfold digit_out_of_range, FTB8MD_NUM_DIGITS.
  rewrite Z.geb_leb.
  destruct (Z.ltb_spec digit 0), (Z.leb_spec 8 digit); simpl; auto; lia.
Qed.

Lemma char_index_in_range i : 0 <= i <= 7 -> char_index_out_of_range i = false.
Proof.
  intros H; unfold char_index_out_of_range.
  rewrite Z.gtb_ltb.
  destruct (Z.ltb_spec i 0), (Z.ltb_spec 7 i); simpl; auto; lia.
Qed.

(** ** One command, one transmission *)

(** With a handle and a non-zero length, [ftb8md_send_command] hands the
    first [len] bytes of the command to the transport and returns what the
    transport returns. *)
Lemma send_command_transmits E h raw len w :
  len <> O ->
  ftb8md_send_command E (Some h) (Some raw) len w
  = (spi_device_transmit_result E w h (firstn len raw),
     w ++ [ESpiTransmit h (firstn len raw)
             (spi_device_transmit_result E w h (firstn len raw))]).
Proof.
  intros Hlen. unfold ftb8md_send_command.
  destruct (Nat.eqb_spec len 0) as [?|_]; [contradiction|].
  unfold spi_device_transmit, spi_transaction_t.tx_bytes.
  cbn [spi_transaction_t.length spi_transaction_t.tx_buffer].
  now rewrite Nat.div_mul by discriminate.
Qed.

(** ** [ftb8md_show_string] *)

Lemma strlen_le_length s : (strlen s <= List.length s)%nat.
Proof.
  induction s as [|c s IH]; simpl; [lia|].
  destruct (c =? 0); lia.
Qed.

Lemma skipn_nth_cons (s : list Z) i d :
  (i < List.length s)%nat -> skipn i s = nth i s d :: skipn (S i) s.
Proof.
  revert i; induction s as [|c s IH]; intros i Hi; simpl in Hi; [lia|].
  destruct i as [|i]; [reflexivity|].
  change (skipn i s = nth i s d :: skipn (S i) s). apply IH; lia.
Qed.

(** The copy loop writes the characters [i .. i+n-1] of the string, each
    converted to [uint8_t], right after the [1 + i] bytes already in
    place, and leaves the rest of the command as it was. *)
Lemma copy_chars_app s n : forall i pre rest,
  List.length pre = S i ->
  (n <= List.length rest)%nat ->
  (i + n <= List.length s)%nat ->
  copy_chars s i n (pre ++ rest)
  = pre ++ map uint8 (firstn n (skipn i s)) ++ skipn n rest.
Proof.
  induction n as [|n IH]; intros i pre rest Hpre Hrest Hs; [reflexivity|].
  destruct rest as [|x rest]; simpl in Hrest; [lia|].
  cbn [copy_chars]. unfold set_dcram_chr.
  rewrite array_set_app by exact Hpre.
  change (pre ++ uint8 (nth i s 0) :: rest)
    with (pre ++ [uint8 (nth i s 0)] ++ rest).
  rewrite app_assoc, IH; [|rewrite length_app; simpl; lia|lia|lia].
  rewrite (skipn_nth_cons s i 0) by lia.
  rewrite <- app_assoc. reflexivity.
Qed.

Lemma Forall_firstn_keep {A} (P : A -> Prop) (l : list A) n :
  Forall P l -> Forall P (firstn n l).
Proof.
  intros H; revert n; induction H as [|x l Hx _ IH]; intros [|n]; simpl; auto.
Qed.

Lemma chars_to_write_min a b : (if Nat.ltb a b then a else b) = Nat.min a b.
Proof. destruct (Nat.ltb_spec a b); lia. Qed.

(** What [ftb8md_show_string] transmits for a valid digit: the DCRAM byte
    and the first [min(strlen, 8 - digit)] characters, each converted to
    [uint8_t]. *)
Lemma show_string_transmits E h digit s w :
  0 <= digit <= 7 ->
  let n := Nat.min (strlen s) (Z.to_nat (8 - digit)) in
  let pkt := (32 + digit) :: map uint8 (firstn n s) in
  ftb8md_show_string E (Some h) digit (Some s) w
  = (spi_device_transmit_result E w h pkt,
     w ++ [ESpiTransmit h pkt (spi_device_transmit_result E w h pkt)]).
Proof.
  intros Hd n pkt. unfold ftb8md_show_string.
  rewrite digit_in_range by exact Hd. cbv zeta.
  rewrite dcram_header by exact Hd.
  rewrite chars_to_write_min. unfold FTB8MD_NUM_DIGITS. fold n.
  assert (Hn8 : (n <= 8)%nat) by (subst n; lia).
  assert (Hns : (n <= List.length s)%nat)
    by (pose proof (strlen_le_length s); subst n; lia).
  change ((32 + digit) :: repeat 0 8) with ([32 + digit] ++ repeat 0 8).
  rewrite (copy_chars_app s n 0 [32 + digit] (repeat 0 8));
    [|reflexivity|rewrite repeat_length; exact Hn8|exact Hns].
  rewrite send_command_transmits by discriminate.
  change (skipn 0 s) with s.
  assert (Hpkt : firstn (1 + n)
                   ([32 + digit] ++ map uint8 (firstn n s) ++ skipn n (repeat 0 8))
                 = pkt).
  { subst pkt. cbn [app firstn Nat.add]. f_equal.
    rewrite firstn_app, firstn_all2 by (rewrite length_map, length_firstn; lia).
    rewrite length_map, length_firstn.
    replace (n - Nat.min n (List.length s))%nat with O by lia.
    now rewrite firstn_O, app_nil_r. }
  now rewrite Hpkt.
Qed.

(** C1. For a digit in 0..7 and a string of [strlen] L whose characters are
    bytes, [ftb8md_show_string] on a non-null handle hands the transport
    one packet of [1 + min(L, 8 - digit)] bytes: the first byte carries the
    prefix 001 in B7-B5 and the digit in B4-B0, the payload is the first
    [min(L, 8 - digit)] characters unchanged. Characters past the display
    width are dropped without an error: the call returns what the transport
    returns. *)
Theorem show_string_packet E h digit s w :
  0 <= digit <= 7 ->
  Forall (fun c => 0 <= c < 256) s ->
  let n := Nat.min (strlen s) (Z.to_nat (8 - digit)) in
  let byte1 := 32 + digit in
  let pkt := byte1 :: firstn n s in
  let ret := spi_device_transmit_result E w h pkt in
  ftb8md_show_string E (Some h) digit (Some s) w
  = (ret, w ++ [ESpiTransmit h pkt ret])
  /\ List.length pkt = (1 + n)%nat
  /\ bitfield_load 5 3 byte1 = CMD_PREFIX_DCRAM
  /\ bitfield_load 0 5 byte1 = digit.
Proof.
  intros Hd Hs n byte1 pkt ret.
  pose proof (show_string_transmits E h digit s w Hd) as Hrun.
  cbv zeta in Hrun. fold n in Hrun.
  rewrite map_uint8_bytes in Hrun by (apply Forall_firstn_keep; exact Hs).
  split; [exact Hrun|].
  split.
  - subst pkt. simpl. rewrite length_firstn.
    pose proof (strlen_le_length s). subst n. lia.
  - subst byte1. cases_0_7 Hd; split; reflexivity.
Qed.

(** "HELLO" at digit 6: "HE" goes out in a 3-byte packet. *)
Lemma show_string_packet_witness :
  ftb8md_show_string all_succeed (Some 1%nat) 6 (Some [72; 69; 76; 76; 79; 0]) []
  = (ESP_OK, [ESpiTransmit 1 [38; 72; 69] ESP_OK]).
Proof.
  refine (proj1 (show_string_packet all_succeed 1%nat 6 [72; 69; 76; 76; 79; 0] [] _ _)).
  - lia.
  - repeat constructor; lia.
Defined.

(** ** Digit validation *)

(** C4. With a digit outside 0..7, [ftb8md_show_string], [ftb8md_set_dot],
    [ftb8md_set_segment] and [ftb8md_set_addressed_char] return
    [ESP_ERR_INVALID_ARG] and leave the trace as it was: nothing reaches the
    bus, whatever the other arguments are. *)
Theorem invalid_digit_rejected E handle digit str dot_on segments char_index w :
  digit < 0 \/ 7 < digit ->
  ftb8md_show_string E handle digit str w = (ESP_ERR_INVALID_ARG, w)
  /\ ftb8md_set_dot E handle digit dot_on w = (ESP_ERR_INVALID_ARG, w)
  /\ ftb8md_set_segment E handle digit segments w = (ESP_ERR_INVALID_ARG, w)
  /\ ftb8md_set_addressed_char E handle digit char_index w = (ESP_ERR_INVALID_ARG, w).
Proof.
  intros Hd. apply digit_not_in_range in Hd.
  unfold ftb8md_show_string, ftb8md_set_dot, ftb8md_set_segment,
    ftb8md_set_addressed_char.
  rewrite Hd.
  destruct handle as [h|], str as [s|]; repeat split; reflexivity.
Qed.

Lemma invalid_digit_rejected_witness :
  ftb8md_show_string all_succeed (Some 1%nat) 8 (Some [72; 73; 0]) []
  = (ESP_ERR_INVALID_ARG, [])
  /\ ftb8md_set_dot all_succeed (Some 1%nat) 8 true [] = (ESP_ERR_INVALID_ARG, [])
  /\ ftb8md_set_segment all_succeed (Some 1%nat) 8 255 [] = (ESP_ERR_INVALID_ARG, [])
  /\ ftb8md_set_addressed_char all_succeed (Some 1%nat) 8 0 []
     = (ESP_ERR_INVALID_ARG, []).
Proof.
  apply (invalid_digit_rejected all_succeed (Some 1%nat) 8 (Some [72; 73; 0])
           true 255 0 []).
  right; lia.
Defined.

(** ** Control commands *)

(** C5. Every level above 240 that a [uint8_t] can hold makes
    [ftb8md_set_dimming] behave exactly as level 240 does: the packet
    [E4 F0] goes to the transport and the transport's result is returned. *)
Theorem set_dimming_saturates E h level w :
  240 < level <= 255 ->
  let pkt := [CMD_DIMMING; FTB8MD_MAX_DIMMING] in
  let ret := spi_device_transmit_result E w h pkt in
  ftb8md_set_dimming E (Some h) level w
  = ftb8md_set_dimming E (Some h) FTB8MD_MAX_DIMMING w
  /\ ftb8md_set_dimming E (Some h) level w = (ret, w ++ [ESpiTransmit h pkt ret]).
Proof.
  intros Hl pkt ret.
  assert (Hrun : ftb8md_set_dimming E (Some h) level w
                 = (ret, w ++ [ESpiTransmit h pkt ret])).
  { unfold ftb8md_set_dimming. cbv zeta.
    rewrite uint8_small by lia.
    replace (level >? FTB8MD_MAX_DIMMING) with true
      by (symmetry; unfold FTB8MD_MAX_DIMMING; rewrite Z.gtb_ltb; apply Z.ltb_lt; lia).
    now rewrite send_command_transmits by discriminate. }
  split; [|exact Hrun].
  rewrite Hrun. unfold ftb8md_set_dimming. cbv zeta.
  now rewrite send_command_transmits by discriminate.
Qed.

Lemma set_dimming_saturates_witness :
  ftb8md_set_dimming all_succeed (Some 1%nat) 255 []
  = ftb8md_set_dimming all_succeed (Some 1%nat) 240 []
  /\ ftb8md_set_dimming all_succeed (Some 1%nat) 255 []
     = (ESP_OK, [ESpiTransmit 1 [228; 240] ESP_OK]).
Proof.
  apply (set_dimming_saturates all_succeed 1%nat 255 []). lia.
Defined.

(** C7. On a non-null handle, standby and normal mode are two 2-byte
    control packets, [ED 00] and [EC 00]: the opcode bytes differ, the
    argument byte is zero in both. *)
Theorem enter_standby_packets E h w :
  let standby := [CMD_MODE_STANDBY; 0] in
  let normal := [CMD_MODE_NORMAL; 0] in
  let ret_s := spi_device_transmit_result E w h standby in
  let ret_n := spi_device_transmit_result E w h normal in
  ftb8md_enter_standby E (Some h) true w
  = (ret_s, w ++ [ESpiTransmit h standby ret_s])
  /\ ftb8md_enter_standby E (Some h) false w
     = (ret_n, w ++ [ESpiTransmit h normal ret_n])
  /\ standby <> normal
  /\ hd 0 standby <> hd 0 normal
  /\ tl standby = [0] /\ tl normal = [0].
Proof.
  cbv zeta. unfold ftb8md_enter_standby.
  rewrite !send_command_transmits by discriminate.
  repeat split; discriminate.
Qed.

(** ** Single-character DCRAM writes *)

Lemma set_segment_transmits E h digit segments w :
  0 <= digit <= 7 ->
  let pkt := [32 + digit; uint8 segments] in
  ftb8md_set_segment E (Some h) digit segments w
  = (spi_device_transmit_result E w h pkt,
     w ++ [ESpiTransmit h pkt (spi_device_transmit_result E w h pkt)]).
Proof.
  intros Hd pkt. unfold ftb8md_set_segment.
  rewrite digit_in_range by exact Hd. cbv zeta.
  rewrite dcram_header by exact Hd.
  now rewrite send_command_transmits by discriminate.
Qed.

(** C10. For a digit and a character index both in 0..7,
    [ftb8md_set_addressed_char] and [ftb8md_set_segment] (given the index
    as segment value) do the same thing on the same handle: one 2-byte
    DCRAM packet, the DCRAM byte for the digit followed by the index, and
    the same return value. *)
Theorem addressed_char_is_set_segment E h digit char_index w :
  0 <= digit <= 7 ->
  0 <= char_index <= 7 ->
  let pkt := [32 + digit; char_index] in
  let ret := spi_device_transmit_result E w h pkt in
  ftb8md_set_addressed_char E (Some h) digit char_index w
  = ftb8md_set_segment E (Some h) digit char_index w
  /\ ftb8md_set_addressed_char E (Some h) digit char_index w
     = (ret, w ++ [ESpiTransmit h pkt ret]).
Proof.
  intros Hd Hc pkt ret.
  assert (Hseg := set_segment_transmits E h digit char_index w Hd).
  cbv zeta in Hseg. rewrite uint8_small in Hseg by lia.
  assert (Hrun : ftb8md_set_addressed_char E (Some h) digit char_index w
                 = (ret, w ++ [ESpiTransmit h pkt ret])).
  { unfold ftb8md_set_addressed_char.
    rewrite digit_in_range, char_index_in_range by assumption. cbv zeta.
    rewrite dcram_header by exact Hd.
    rewrite send_command_transmits by discriminate.
    cbn [firstn set_dcram_chr array_set repeat Nat.add].
    now rewrite uint8_small by lia. }
  split; [|exact Hrun].
  now rewrite Hrun, Hseg.
Qed.

Lemma addressed_char_is_set_segment_witness :
  ftb8md_set_addressed_char all_succeed (Some 1%nat) 7 3 []
  = ftb8md_set_segment all_succeed (Some 1%nat) 7 3 []
  /\ ftb8md_set_addressed_char all_succeed (Some 1%nat) 7 3 []
     = (ESP_OK, [ESpiTransmit 1 [39; 3] ESP_OK]).
Proof.
  apply (addressed_char_is_set_segment all_succeed 1%nat 7 3 []); lia.
Defined.

(** ** Custom characters *)

(** C6. For a character index in 0..7 and a 5-byte pattern,
    [ftb8md_write_custom_char] hands the transport a 6-byte packet that
    decodes back: prefix 010 in B7-B5 and the index in B2-B0 of the first
    byte, then the five pattern bytes exactly as given, whatever their
    bit 7. *)
Theorem custom_char_round_trip E h char_index p w :
  0 <= char_index <= 7 ->
  List.length p = 5%nat ->
  let pkt := (64 + char_index) :: p in
  let ret := spi_device_transmit_result E w h pkt in
  ftb8md_write_custom_char E (Some h) char_index (Some p) w
  = (ret, w ++ [ESpiTransmit h pkt ret])
  /\ List.length pkt = 6%nat
  /\ cgram_prefix pkt = CMD_PREFIX_CGRAM
  /\ cgram_addr pkt = char_index
  /\ cgram_data pkt = p.
Proof.
  intros Hc Hp pkt ret.
  destruct p as [|p0 [|p1 [|p2 [|p3 [|p4 [|]]]]]]; try discriminate Hp.
  split.
  - unfold ftb8md_write_custom_char.
    rewrite char_index_in_range by exact Hc. cbv zeta.
    rewrite cgram_header by exact Hc.
    now rewrite send_command_transmits by discriminate.
  - subst pkt. repeat split; try reflexivity;
      unfold cgram_prefix, cgram_addr, get; cbn [nth];
      cases_0_7 Hc; reflexivity.
Qed.

Lemma custom_char_round_trip_witness :
  ftb8md_write_custom_char all_succeed (Some 1%nat) 7 (Some [255; 1; 2; 3; 128]) []
  = (ESP_OK, [ESpiTransmit 1 [71; 255; 1; 2; 3; 128] ESP_OK])
  /\ cgram_addr [71; 255; 1; 2; 3; 128] = 7
  /\ cgram_data [71; 255; 1; 2; 3; 128] = [255; 1; 2; 3; 128].
Proof.
  destruct (custom_char_round_trip all_succeed 1%nat 7 [255; 1; 2; 3; 128] [])
    as (Hrun & _ & _ & Haddr & Hdata); [lia|reflexivity|].
  exact (conj Hrun (conj Haddr Hdata)).
Defined.

(** ** [ftb8md_set_dot] and [ftb8md_clear_display] *)

Lemma set_dot_transmits E h digit dot_on w :
  0 <= digit <= 7 ->
  let pkt := dot_packet digit dot_on in
  ftb8md_set_dot E (Some h) digit dot_on w
  = (spi_device_transmit_result E w h pkt,
     w ++ [ESpiTransmit h pkt (spi_device_transmit_result E w h pkt)]).
Proof.
  intros Hd pkt. unfold ftb8md_set_dot.
  rewrite digit_in_range by exact Hd. cbv zeta.
  rewrite adram_header by exact Hd.
  rewrite send_command_transmits by discriminate.
  subst pkt. destruct dot_on; reflexivity.
Qed.

(** The dot loop over the digits [i, i+1, ...] is a stop-at-first-failure
    send of their dot-off packets. *)
Lemma clear_dots_sends E h digits : forall i w,
  0 <= i ->
  i + Z.of_nat (List.length digits) <= 8 ->
  (forall j, (j < List.length digits)%nat -> nth j digits 0 = i + Z.of_nat j) ->
  clear_dots E (Some h) i (List.length digits) w
  = send_until_failure E h (map (fun digit => dot_packet digit false) digits) w.
Proof.
  induction digits as [|d digits IH]; intros i w Hi Hlen Hnth; [reflexivity|].
  cbn [List.length clear_dots map send_until_failure].
  assert (Hd : d = i)
    by (pose proof (Hnth O ltac:(simpl; lia)) as H0; simpl in H0; lia).
  subst d. unfold Bind.
  rewrite set_dot_transmits by (simpl in Hlen; lia).
  destruct (negb (_ =? ESP_OK)); [reflexivity|].
  apply IH; [lia|simpl in Hlen; lia|].
  intros j Hj. specialize (Hnth (S j)). simpl in Hnth.
  rewrite Hnth by lia. lia.
Qed.

Lemma clear_display_sends E h w :
  ftb8md_clear_display E (Some h) w = send_until_failure E h clear_packets w.
Proof.
  unfold ftb8md_clear_display. cbv zeta. unfold Bind.
  rewrite send_command_transmits by discriminate.
  unfold clear_packets. cbn [send_until_failure].
  change (firstn _ (memset 1 32 (Z.to_nat FTB8MD_NUM_DIGITS) _))
    with (dcram_packet 0 (repeat 32 8)).
  destruct (negb (_ =? ESP_OK)); [reflexivity|].
  apply (clear_dots_sends E h [0; 1; 2; 3; 4; 5; 6; 7] 0); [lia|simpl; lia|].
  intros j Hj. simpl in Hj.
  do 8 (destruct j as [|j]; [reflexivity|]). lia.
Qed.

(** While the transport accepts, [send_until_failure] moves on. *)
Lemma send_until_failure_skip E h : forall k pkts w,
  (k <= List.length pkts)%nat ->
  (forall j, (j < k)%nat ->
     spi_device_transmit_result E (w ++ ok_events h (firstn j pkts)) h (nth j pkts [])
     = ESP_OK) ->
  send_until_failure E h pkts w
  = send_until_failure E h (skipn k pkts) (w ++ ok_events h (firstn k pkts)).
Proof.
  induction k as [|k IH]; intros pkts w Hk Hok.
  - simpl. now rewrite app_nil_r.
  - destruct pkts as [|p pkts]; simpl in Hk; [lia|].
    pose proof (Hok O ltac:(lia)) as H0. simpl in H0. rewrite app_nil_r in H0.
    cbn [send_until_failure]. rewrite H0. cbn [Z.eqb ESP_OK negb].
    rewrite IH; [|lia|].
    + cbn [firstn skipn ok_events map]. now rewrite <- app_assoc.
    + intros j Hj. specialize (Hok (S j) ltac:(lia)).
      cbn [firstn nth ok_events map] in Hok.
      rewrite <- app_assoc. exact Hok.
Qed.

(** C3. [ftb8md_clear_display] on a non-null handle hands the transport the
    9 packets of [clear_packets] in order (8 spaces from digit 0, then
    dot-off for digits 0..7) and stops at the first one that fails. With
    [k] the number of leading transmissions that succeed: if all 9 do, the
    trace grows by exactly these 9 transmissions and the result is
    [ESP_OK]; if the one after [k < 9] successes fails with [err], the trace
    grows by the [k] successful transmissions and the failed one, nothing
    is attempted after it, and [err] is returned. For the 3rd dot-off
    ([k = 3]): 4 transmissions are attempted, 3 are accepted and the 4th
    is the failure. *)
Theorem clear_display_stops_at_first_failure E h w k :
  (k <= 9)%nat ->
  (forall j, (j < k)%nat ->
     spi_device_transmit_result E (w ++ ok_events h (firstn j clear_packets)) h
       (nth j clear_packets []) = ESP_OK) ->
  List.length clear_packets = 9%nat
  /\ (k = 9%nat ->
      ftb8md_clear_display E (Some h) w = (ESP_OK, w ++ ok_events h clear_packets))
  /\ (forall err,
        (k < 9)%nat ->
        spi_device_transmit_result E (w ++ ok_events h (firstn k clear_packets)) h
          (nth k clear_packets []) = err ->
        err <> ESP_OK ->
        ftb8md_clear_display E (Some h) w
        = (err, w ++ ok_events h (firstn k clear_packets)
                  ++ [ESpiTransmit h (nth k clear_packets []) err])).
Proof.
  intros Hk Hok. split; [reflexivity|].
  rewrite clear_display_sends.
  rewrite (send_until_failure_skip E h k clear_packets w) by (auto; simpl; lia).
  split.
  - intros ->. reflexivity.
  - intros err Hlt Herr Hne.
    assert (Hskip : exists rest, skipn k clear_packets = nth k clear_packets [] :: rest).
    { do 9 (destruct k as [|k]; [eexists; reflexivity|]). lia. }
    destruct Hskip as [rest ->].
    cbn [send_until_failure]. rewrite Herr.
    apply Z.eqb_neq in Hne. rewrite Hne. cbn [negb].
    now rewrite <- app_assoc.
Qed.

(** All 9 transmissions succeed; and the 3rd dot-off fails. *)
Lemma clear_display_stops_at_first_failure_witness :
  ftb8md_clear_display all_succeed (Some 1%nat) []
  = (ESP_OK,
     [ESpiTransmit 1 [32; 32; 32; 32; 32; 32; 32; 32; 32] ESP_OK;
      ESpiTransmit 1 [96; 0] ESP_OK; ESpiTransmit 1 [97; 0] ESP_OK;
      ESpiTransmit 1 [98; 0] ESP_OK; ESpiTransmit 1 [99; 0] ESP_OK;
      ESpiTransmit 1 [100; 0] ESP_OK; ESpiTransmit 1 [101; 0] ESP_OK;
      ESpiTransmit 1 [102; 0] ESP_OK; ESpiTransmit 1 [103; 0] ESP_OK])
  /\ ftb8md_clear_display (transmit_fails_at 3 ESP_FAIL) (Some 1%nat) []
     = (ESP_FAIL,
        [ESpiTransmit 1 [32; 32; 32; 32; 32; 32; 32; 32; 32] ESP_OK;
         ESpiTransmit 1 [96; 0] ESP_OK; ESpiTransmit 1 [97; 0] ESP_OK;
         ESpiTransmit 1 [98; 0] ESP_FAIL]).
Proof.
  split.
  - refine (proj1 (proj2 (clear_display_stops_at_first_failure
                            all_succeed 1%nat [] 9 _ _)) eq_refl).
    + lia.
    + intros; reflexivity.
  - refine (proj2 (proj2 (clear_display_stops_at_first_failure
                            (transmit_fails_at 3 ESP_FAIL) 1%nat [] 3 _ _))
              ESP_FAIL _ eq_refl _).
    + lia.
    + intros j Hj. do 3 (destruct j as [|j]; [reflexivity|]). lia.
    + lia.
    + discriminate.
Defined.

(** C3, as first stated, fails: when the 3rd dot-off is the transmission
    that fails, the transport has been called 4 times, not 3: the text
    clear, the dot-offs of digits 0 and 1, which were accepted, and the
    dot-off of digit 2, whose failure is returned. *)
Lemma clear_display_third_dot_off_is_fourth_transmission :
  let out := ftb8md_clear_display (transmit_fails_at 3 ESP_FAIL) (Some 1%nat) [] in
  fst out = ESP_FAIL
  /\ last (snd out) (ELogI "") = ESpiTransmit 1 (dot_packet 2 false) ESP_FAIL
  /\ transmit_count (snd out) = 4%nat
  /\ transmit_count (snd out) <> 3%nat.
Proof.
  cbv zeta. repeat split. discriminate.
Qed.

(** ** [ftb8md_device_register] *)

(** The [if (ret != ESP_OK) ESP_LOGE(...)] after a configuration step. *)
Lemma log_if_failed fmt r w :
  (if negb (r =? ESP_OK) then ESP_LOGE fmt r else Return tt) w
  = (tt, w ++ (if r =? ESP_OK then [] else [ELogE fmt r])).
Proof.
  destruct (r =? ESP_OK); cbn; [now rewrite app_nil_r|reflexivity].
Qed.

(** Registration once the device is bound to a non-null handle: the three
    configuration packets go out whatever the transport answers, a failed
    digit-count or display-on step leaves an error line in the log, the
    value [ftb8md_set_dimming] returns is dropped, and the handle is
    returned. *)
Lemma register_device_bound E host_id cs_pin h w :
  spi_bus_add_device_result E w host_id (dev_cfg_for cs_pin) = (ESP_OK, Some h) ->
  let w1 := w ++ [ESpiBusAddDevice host_id (dev_cfg_for cs_pin) ESP_OK (Some h)] in
  let r1 := spi_device_transmit_result E w1 h digit_count_packet in
  let w2 := w1 ++ ESpiTransmit h digit_count_packet r1
                  :: (if r1 =? ESP_OK then []
                      else [ELogE "Failed to set digit count: %s" r1]) in
  let r2 := spi_device_transmit_result E w2 h max_dimming_packet in
  let w3 := w2 ++ [ESpiTransmit h max_dimming_packet r2] in
  let r3 := spi_device_transmit_result E w3 h display_on_packet in
  let w4 := w3 ++ ESpiTransmit h display_on_packet r3
                  :: (if r3 =? ESP_OK then []
                      else [ELogE "Failed to turn on display: %s" r3]) in
  register_device E host_id cs_pin w
  = (Some h, w4 ++ [ELogI "VFD display initialized successfully"]).
Proof.
  intros Hadd w1 r1 w2 r2 w3 r3 w4.
  unfold register_device, Bind, spi_bus_add_device. cbv zeta.
  rewrite Hadd. cbn [fst snd Z.eqb ESP_OK negb]. fold w1.
  rewrite send_command_transmits by discriminate.
  change (firstn 2 _) with digit_count_packet. fold r1.
  rewrite log_if_failed, <- app_assoc. cbn [app]. fold w2.
  unfold ftb8md_set_dimming. cbv zeta.
  rewrite send_command_transmits by discriminate.
  change (firstn 2 _) with max_dimming_packet. fold r2 w3.
  rewrite send_command_transmits by discriminate.
  change (firstn 2 _) with display_on_packet. fold r3.
  rewrite log_if_failed, <- app_assoc. cbn [app]. fold w4.
  reflexivity.
Qed.

(** When binding fails, registration logs the error and returns [NULL]
    without touching the bus. *)
Lemma register_device_bind_failure E host_id cs_pin w :
  fst (spi_bus_add_device_result E w host_id (dev_cfg_for cs_pin)) <> ESP_OK ->
  let r := spi_bus_add_device_result E w host_id (dev_cfg_for cs_pin) in
  register_device E host_id cs_pin w
  = (NULL, w ++ [ESpiBusAddDevice host_id (dev_cfg_for cs_pin) (fst r) (snd r);
                 ELogE "Failed to add SPI device: %s" (fst r)]).
Proof.
  intros Hne r. subst r.
  unfold register_device, Bind, spi_bus_add_device. cbv zeta.
  destruct (spi_bus_add_device_result E w host_id (dev_cfg_for cs_pin))
    as [ret handle].
  cbn [fst snd] in *.
  apply Z.eqb_neq in Hne. rewrite Hne. cbn. now rewrite <- app_assoc.
Qed.

(** C2. Registration with a connected reset pin, every collaborator call
    succeeding: the pin is configured, driven low, a 10 ms delay is
    requested, the pin is driven high, a second 10 ms delay is requested;
    then the device is bound; then exactly three 2-byte control packets go
    out, [E0 07] (8 digits), [E4 F0] (dimming 240) and [E8 07] (display
    on), and the bound handle is returned. Nothing else happens in between,
    so the bus is untouched until the reset pulse is over. *)
Theorem register_sequence E host_id cs_pin reset_pin h w :
  let io_conf := io_conf_for reset_pin in
  let dev_cfg := dev_cfg_for cs_pin in
  let w0 := w ++ [EGpioConfig io_conf ESP_OK;
                  EGpioSetLevel reset_pin 0; ETaskDelayMs 10;
                  EGpioSetLevel reset_pin 1; ETaskDelayMs 10] in
  let w1 := w0 ++ [ESpiBusAddDevice host_id dev_cfg ESP_OK (Some h)] in
  let w2 := w1 ++ [ESpiTransmit h digit_count_packet ESP_OK] in
  let w3 := w2 ++ [ESpiTransmit h max_dimming_packet ESP_OK] in
  0 <= reset_pin ->
  gpio_config_result E w io_conf = ESP_OK ->
  spi_bus_add_device_result E w0 host_id dev_cfg = (ESP_OK, Some h) ->
  spi_device_transmit_result E w1 h digit_count_packet = ESP_OK ->
  spi_device_transmit_result E w2 h max_dimming_packet = ESP_OK ->
  spi_device_transmit_result E w3 h display_on_packet = ESP_OK ->
  ftb8md_device_register E host_id cs_pin reset_pin w
  = (Some h, w3 ++ [ESpiTransmit h display_on_packet ESP_OK;
                    ELogI "VFD display initialized successfully"])
  /\ digit_count_packet = [0xE0; 7]
  /\ max_dimming_packet = [0xE4; 240]
  /\ display_on_packet = [0xE8; 7].
Proof.
  intros io_conf dev_cfg w0 w1 w2 w3 Hpin Hgpio Hadd H1 H2 H3.
  split; [|repeat split].
  unfold ftb8md_device_register.
  replace (reset_pin >=? 0) with true
    by (symmetry; rewrite Z.geb_leb; apply Z.leb_le; exact Hpin).
  cbv zeta. unfold Bind at 1. unfold gpio_config. fold io_conf.
  rewrite Hgpio. cbn [Z.eqb ESP_OK negb].
  unfold Bind, gpio_set_level, vTaskDelay_ms, emit.
  repeat rewrite <- app_assoc. cbn [app]. fold w0.
  rewrite (register_device_bound E host_id cs_pin h w0 Hadd). cbv zeta.
  fold dev_cfg w1. rewrite H1. cbn [Z.eqb ESP_OK]. fold w2.
  rewrite H2. fold w3. rewrite H3. cbn [Z.eqb ESP_OK].
  now rewrite <- app_assoc.
Qed.

Lemma register_sequence_witness :
  ftb8md_device_register all_succeed 2 5 4 []
  = (Some 1%nat,
     [EGpioConfig (io_conf_for 4) ESP_OK;
      EGpioSetLevel 4 0; ETaskDelayMs 10; EGpioSetLevel 4 1; ETaskDelayMs 10;
      ESpiBusAddDevice 2 (dev_cfg_for 5) ESP_OK (Some 1%nat);
      ESpiTransmit 1 [224; 7] ESP_OK;
      ESpiTransmit 1 [228; 240] ESP_OK;
      ESpiTransmit 1 [232; 7] ESP_OK;
      ELogI "VFD display initialized successfully"]).
Proof.
  refine (proj1 (register_sequence all_succeed 2 5 4 1%nat [] _ _ _ _ _ _));
    solve [lia | reflexivity].
Defined.

(** C9. A transport failure on the dimming step of registration: the bound
    handle is still returned and the other two packets still go out, but
    the failure leaves no line in the error log, whereas the same failure
    on the digit-count step or on the display-on step is logged. *)
Theorem register_dimming_failure_unlogged :
  ftb8md_device_register (transmit_fails_at 1 ESP_FAIL) 2 5 (-1) []
  = (Some 1%nat,
     [ESpiBusAddDevice 2 (dev_cfg_for 5) ESP_OK (Some 1%nat);
      ESpiTransmit 1 digit_count_packet ESP_OK;
      ESpiTransmit 1 max_dimming_packet ESP_FAIL;
      ESpiTransmit 1 display_on_packet ESP_OK;
      ELogI "VFD display initialized successfully"])
  /\ logged_errors
       (snd (ftb8md_device_register (transmit_fails_at 1 ESP_FAIL) 2 5 (-1) []))
     = []
  /\ logged_errors
       (snd (ftb8md_device_register (transmit_fails_at 0 ESP_FAIL) 2 5 (-1) []))
     = [("Failed to set digit count: %s"%string, ESP_FAIL)]
  /\ logged_errors
       (snd (ftb8md_device_register (transmit_fails_at 2 ESP_FAIL) 2 5 (-1) []))
     = [("Failed to turn on display: %s"%string, ESP_FAIL)].
Proof. repeat split. Qed.

(** ** Packet sizes *)

Lemma set_field_length byte lo width v cmd :
  List.length (set_field byte lo width v cmd) = List.length cmd.
Proof. apply array_set_length. Qed.

Lemma memset_length n : forall off v cmd,
  List.length (memset off v n cmd) = List.length cmd.
Proof.
  induction n as [|n IH]; intros off v cmd; simpl; [reflexivity|].
  now rewrite IH, array_set_length.
Qed.

Lemma memcpy_length n : forall off src cmd,
  List.length (memcpy off src n cmd) = List.length cmd.
Proof.
  induction n as [|n IH]; intros off src cmd; simpl; [reflexivity|].
  now rewrite IH, array_set_length.
Qed.

Lemma copy_chars_length str n : forall i cmd,
  List.length (copy_chars str i n cmd) = List.length cmd.
Proof.
  induction n as [|n IH]; intros i cmd; simpl; [reflexivity|].
  rewrite IH. apply array_set_length.
Qed.

Lemma transmitted_app a b : transmitted (a ++ b) = transmitted a ++ transmitted b.
Proof.
  induction a as [|e a IH]; simpl; [reflexivity|].
  destruct e; simpl; now rewrite ?IH.
Qed.

Lemma in_0_7_spec v : in_0_7 v = true <-> 0 <= v <= 7.
Proof.
  unfold in_0_7. rewrite andb_true_iff, Z.leb_le, Z.leb_le. reflexivity.
Qed.

Lemma digit_out_of_range_in_0_7 digit :
  digit_out_of_range digit = negb (in_0_7 digit).
Proof.
  destruct (in_0_7 digit) eqn:H.
  - apply in_0_7_spec in H. now apply digit_in_range.
  - apply digit_not_in_range.
    destruct (Z.le_gt_cases 0 digit); [|lia].
    destruct (Z.le_gt_cases digit 7); [|lia].
    rewrite (proj2 (in_0_7_spec digit)) in H by lia. discriminate.
Qed.

Lemma char_index_out_of_range_in_0_7 i :
  char_index_out_of_range i = negb (in_0_7 i).
Proof.
  unfold char_index_out_of_range, in_0_7. rewrite Z.gtb_ltb.
  destruct (Z.ltb_spec i 0), (Z.ltb_spec 7 i), (Z.leb_spec 0 i), (Z.leb_spec i 7);
    simpl; auto; lia.
Qed.

(** A call that sends nothing. *)
Lemma sizes_silent E c evs :
  transmitted evs = [] ->
  (collaborators_succeed E -> args_valid c = true -> payload_used c = []) ->
  packet_sizes_ok E c evs.
Proof.
  intros Htx Hvalid. unfold packet_sizes_ok. rewrite Htx. split; [constructor|].
  split; [now exists (map S (payload_used c))|].
  intros HE Hv. now rewrite (Hvalid HE Hv).
Qed.

(** A call that sends all its packets. *)
Lemma sizes_exact E c evs :
  Forall (fun n => (n <= 8)%nat) (payload_used c) ->
  map (@List.length Z) (transmitted evs) = map S (payload_used c) ->
  packet_sizes_ok E c evs.
Proof.
  intros Hle Hlen. unfold packet_sizes_ok.
  split; [|split; [exists []; now rewrite app_nil_r|auto]].
  revert Hle Hlen. generalize (payload_used c) as sizes.
  induction (transmitted evs) as [|p pkts IH]; intros [|n sizes] Hle Hlen;
    try discriminate; [constructor|].
  simpl in Hlen. injection Hlen as Hp Hrest. inversion Hle; subst.
  constructor; [lia|]. now apply (IH sizes).
Qed.

(** A call that sends the first [k] of its packets. *)
Lemma sizes_prefix E c evs k :
  Forall (fun n => (n <= 8)%nat) (payload_used c) ->
  map (@List.length Z) (transmitted evs) = firstn k (map S (payload_used c)) ->
  (collaborators_succeed E -> args_valid c = true ->
   (List.length (payload_used c) <= k)%nat) ->
  packet_sizes_ok E c evs.
Proof.
  intros Hle Hlen Hall. unfold packet_sizes_ok. split; [|split].
  - assert (Hfa : Forall (fun n => (1 <= n <= 9)%nat)
                    (map (@List.length Z) (transmitted evs))).
    { rewrite Hlen. apply Forall_firstn_keep.
      apply Forall_map. eapply Forall_impl; [|exact Hle].
      intros n Hn; cbv beta in Hn; lia. }
    clear -Hfa.
    induction (transmitted evs) as [|p pkts IH]; simpl in *; [constructor|].
    inversion Hfa; subst. constructor; auto.
  - exists (skipn k (map S (payload_used c))).
    now rewrite Hlen, firstn_skipn.
  - intros HE Hv. rewrite Hlen. apply firstn_all2.
    rewrite length_map. now apply Hall.
Qed.

(** What [send_until_failure] appends: transmissions of the first packets,
    of all of them when the transport never fails. *)
Lemma send_until_failure_transmitted E h pkts : forall w,
  exists evs k,
    snd (send_until_failure E h pkts w) = w ++ evs
    /\ transmitted evs = firstn k pkts
    /\ ((forall w' bytes, spi_device_transmit_result E w' h bytes = ESP_OK) ->
        k = List.length pkts).
Proof.
  induction pkts as [|p pkts IH]; intros w.
  - exists [], O. simpl. now rewrite app_nil_r.
  - cbn [send_until_failure].
    destruct (negb (spi_device_transmit_result E w h p =? ESP_OK)) eqn:Hr.
    + exists [ESpiTransmit h p (spi_device_transmit_result E w h p)], 1%nat.
      repeat split. intros Hok. rewrite Hok in Hr. discriminate.
    + destruct (IH (w ++ [ESpiTransmit h p (spi_device_transmit_result E w h p)]))
        as (evs & k & Hrun & Htx & Hall).
      exists (ESpiTransmit h p (spi_device_transmit_result E w h p) :: evs), (S k).
      rewrite Hrun, <- app_assoc. simpl. rewrite Htx.
      repeat split. intros Hok. now rewrite Hall.
Qed.

(** The payload sizes of a call are at most 8. *)
Ltac payload_bound :=
  cbn [payload_used repeat];
  repeat (apply Forall_cons || apply Forall_nil); cbv beta; lia.

(** A call that sends one packet of the size the layout gives. *)
Lemma sizes_one E c h pkt r n :
  payload_used c = [n] ->
  (n <= 8)%nat ->
  List.length pkt = S n ->
  packet_sizes_ok E c [ESpiTransmit h pkt r].
Proof.
  intros Hp Hn Hl. apply sizes_exact.
  - rewrite Hp. constructor; [exact Hn|constructor].
  - simpl. now rewrite Hp, Hl.
Qed.

(** Put the trace of the goal [exists evs, trace = w ++ evs /\ _] in the
    form [w ++ _] and take what was appended for [evs]. *)
Ltac appended_events :=
  match goal with
  | |- exists evs, ?trace = _ ++ evs /\ _ =>
      let out := fresh "out" in
      let Hout := fresh "Hout" in
      remember trace as out eqn:Hout;
      repeat rewrite <- app_assoc in Hout; cbn [app] in Hout;
      subst out; eexists; split; [reflexivity|]
  end.

Lemma register_device_sizes E host_id cs_pin reset_pin w :
  exists evs,
    snd (register_device E host_id cs_pin w) = w ++ evs
    /\ packet_sizes_ok E (call_device_register host_id cs_pin reset_pin) evs.
Proof.
  destruct (spi_bus_add_device_result E w host_id (dev_cfg_for cs_pin))
    as [ret handle] eqn:Hadd.
  assert (Hfail : forall evs,
             (ret <> ESP_OK \/ handle = None) ->
             transmitted evs = [] ->
             packet_sizes_ok E (call_device_register host_id cs_pin reset_pin) evs).
  { intros evs Hbad Htx. apply sizes_silent; [exact Htx|].
    intros (_ & Hbind & _) _.
    destruct (Hbind w host_id (dev_cfg_for cs_pin)) as [h Hh].
    rewrite Hh in Hadd. injection Hadd as <- <-.
    destruct Hbad as [Hbad|Hbad]; [now elim Hbad|discriminate]. }
  destruct (Z.eq_dec ret ESP_OK) as [->|Hne].
  - destruct handle as [h|].
    + rewrite (register_device_bound E host_id cs_pin h w Hadd).
      cbv zeta. cbn [snd]. appended_events.
      apply sizes_exact; [payload_bound|].
      cbn [transmitted]. rewrite !transmitted_app. cbn [transmitted app].
      repeat match goal with
             | |- context [if ?b then [] else [ELogE ?f ?r]] => destruct b
             end; reflexivity.
    + unfold register_device, Bind, spi_bus_add_device. cbv zeta.
      rewrite Hadd. cbn. appended_events.
      apply Hfail; [now right|reflexivity].
  - rewrite register_device_bind_failure by (rewrite Hadd; exact Hne).
    cbv zeta. rewrite Hadd. cbn [fst snd].
    eexists. split; [reflexivity|].
    apply Hfail; [now left|reflexivity].
Qed.

Lemma transmitted_ext E c evs evs' :
  transmitted evs' = transmitted evs ->
  packet_sizes_ok E c evs -> packet_sizes_ok E c evs'.
Proof. unfold packet_sizes_ok. now intros ->. Qed.

(** A call rejected before any transmission. *)
Ltac rejected :=
  exists []; split; [now rewrite app_nil_r|];
  apply sizes_silent; [reflexivity|];
  let Hv := fresh "Hv" in
  intros _ Hv; cbn [args_valid non_null] in Hv;
  repeat match goal with
         | H : in_0_7 _ = false |- _ => rewrite H in Hv
         end;
  rewrite ?andb_false_r in Hv; discriminate Hv.

(** A call that reaches [ftb8md_send_command] with a handle and sends a
    packet with [n] payload bytes. *)
Ltac one_packet n :=
  rewrite send_command_transmits by discriminate; cbn [snd];
  eexists; split; [reflexivity|];
  apply (sizes_one _ _ _ _ _ n); [reflexivity|lia|reflexivity].

Lemma packet_sizes E c w :
  exists evs, run E c w = w ++ evs /\ packet_sizes_ok E c evs.
Proof.
  destruct c as [host_id cs_pin reset_pin | handle digit str | handle level
                | handle standby | handle on | handle digit dot_on
                | handle digit segments | handle
                | handle char_index grid_data | handle digit char_index];
    cbn [run].
  - (* ftb8md_device_register *)
    unfold ftb8md_device_register.
    destruct (reset_pin >=? 0); [|apply register_device_sizes].
    cbv zeta. unfold Bind at 1. unfold gpio_config.
    destruct (negb (gpio_config_result E w (io_conf_for reset_pin) =? ESP_OK))
      eqn:Hgpio.
    + cbn. appended_events.
      apply sizes_silent; [reflexivity|].
      intros (Hok & _) _. rewrite Hok in Hgpio. discriminate.
    + unfold Bind, gpio_set_level, vTaskDelay_ms, emit.
      match goal with
      | |- context [register_device E host_id cs_pin ?w0] =>
          destruct (register_device_sizes E host_id cs_pin reset_pin w0)
            as (evs & Hrun & Hsizes); rewrite Hrun
      end.
      appended_events.
      revert Hsizes. apply transmitted_ext. reflexivity.
  - (* ftb8md_show_string *)
    destruct handle as [h|]; [|rejected].
    destruct str as [s|]; [|rejected].
    destruct (in_0_7 digit) eqn:Hd.
    + apply in_0_7_spec in Hd.
      rewrite (show_string_transmits E h digit s w Hd). cbn [snd].
      eexists; split; [reflexivity|].
      pose proof (strlen_le_length s) as Hs.
      apply sizes_exact.
      * cbn [payload_used]. constructor; [lia|constructor].
      * cbn [transmitted map payload_used List.length].
        rewrite length_map, length_firstn. do 2 f_equal. lia.
    + unfold ftb8md_show_string. rewrite digit_out_of_range_in_0_7, Hd.
      cbn [negb Return snd].
      rejected.
  - (* ftb8md_set_dimming *)
    destruct handle as [h|]; [|rejected].
    unfold ftb8md_set_dimming. cbv zeta. one_packet 1%nat.
  - (* ftb8md_enter_standby *)
    destruct handle as [h|]; [|rejected].
    unfold ftb8md_enter_standby. cbv zeta. one_packet 1%nat.
  - (* ftb8md_set_display_power *)
    destruct handle as [h|]; [|rejected].
    unfold ftb8md_set_display_power. cbv zeta. one_packet 1%nat.
  - (* ftb8md_set_dot *)
    destruct handle as [h|]; [|rejected].
    unfold ftb8md_set_dot. rewrite digit_out_of_range_in_0_7.
    destruct (in_0_7 digit) eqn:Hd; cbn [negb]; [|rejected].
    cbv zeta. one_packet 1%nat.
  - (* ftb8md_set_segment *)
    destruct handle as [h|]; [|rejected].
    unfold ftb8md_set_segment. rewrite digit_out_of_range_in_0_7.
    destruct (in_0_7 digit) eqn:Hd; cbn [negb]; [|rejected].
    cbv zeta. one_packet 1%nat.
  - (* ftb8md_clear_display *)
    destruct handle as [h|]; [|rejected].
    rewrite clear_display_sends.
    destruct (send_until_failure_transmitted E h clear_packets w)
      as (evs & k & Hrun & Htx & Hall).
    exists evs. split; [exact Hrun|].
    apply (sizes_prefix E _ evs k); [payload_bound| |].
    + rewrite Htx, <- firstn_map. reflexivity.
    + intros (_ & _ & Hok) _. rewrite Hall by (intros; apply Hok).
      apply Nat.le_refl.
  - (* ftb8md_write_custom_char *)
    destruct handle as [h|]; [|rejected].
    destruct grid_data as [data|]; [|rejected].
    unfold ftb8md_write_custom_char. rewrite char_index_out_of_range_in_0_7.
    destruct (in_0_7 char_index) eqn:Hc; cbn [negb]; [|rejected].
    cbv zeta. one_packet 5%nat.
  - (* ftb8md_set_addressed_char *)
    destruct handle as [h|]; [|rejected].
    unfold ftb8md_set_addressed_char.
    rewrite digit_out_of_range_in_0_7, char_index_out_of_range_in_0_7.
    destruct (in_0_7 digit) eqn:Hd; cbn [negb]; [|rejected].
    destruct (in_0_7 char_index) eqn:Hc; cbn [negb]; [|rejected].
    cbv zeta. one_packet 1%nat.
Qed.

(** C8. Whatever the call, its arguments, the trace so far and the answers
    of the collaborators: every packet handed to the transport is 1 to 9
    bytes long; packet by packet, its size is 1 plus the payload the layout
    gives it (the characters that fit for [ftb8md_show_string], 8 spaces
    then 1 pin byte per digit for [ftb8md_clear_display], 5 pattern bytes
    for [ftb8md_write_custom_char], 1 byte otherwise), for as many packets
    as the call gets to send; and with valid arguments and collaborators
    that never fail, all of them are sent. *)
Theorem packet_size_invariant E c w :
  exists evs,
    run E c w = w ++ evs
    /\ Forall (fun p => (1 <= List.length p <= 9)%nat) (transmitted evs)
    /\ (exists rest,
          map S (payload_used c) = map (@List.length Z) (transmitted evs) ++ rest)
    /\ (collaborators_succeed E -> args_valid c = true ->
        map (@List.length Z) (transmitted evs) = map S (payload_used c)).
Proof.
  destruct (packet_sizes E c w) as (evs & Hrun & Hsizes).
  exists evs. split; [exact Hrun|exact Hsizes].
Qed.

Lemma all_succeed_succeeds : collaborators_succeed all_succeed.
Proof.
  repeat split. intros; now exists 1%nat.
Qed.

(** "HELLO" at digit 6 is one packet of 1 + 2 bytes. *)
Lemma packet_size_invariant_witness :
  exists evs,
    run all_succeed (call_show_string (Some 1%nat) 6 (Some [72; 69; 76; 76; 79; 0])) []
    = [] ++ evs
    /\ map (@List.length Z) (transmitted evs) = [3%nat].
Proof.
  destruct (packet_size_invariant all_succeed
              (call_show_string (Some 1%nat) 6 (Some [72; 69; 76; 76; 79; 0])) [])
    as (evs & Hrun & _ & _ & Hall).
  exists evs. split; [exact Hrun|].
  exact (Hall all_succeed_succeeds eq_refl).
Defined.

(** ** Argument validation, for every call *)

(** X1. A call with a null handle, a null string or pattern pointer, a
    digit outside 0..7 or a character index outside 0..7 returns
    [ESP_ERR_INVALID_ARG] and calls no collaborator: the trace is
    unchanged. *)
Theorem invalid_arguments_rejected E c w :
  args_valid c = false ->
  call_result E c w = Some ESP_ERR_INVALID_ARG /\ run E c w = w.
Proof.
  intros Hv.
  destruct c as [host_id cs_pin reset_pin | handle digit str | handle level
                | handle standby | handle on | handle digit dot_on
                | handle digit segments | handle
                | handle char_index grid_data | handle digit char_index];
    cbn [args_valid] in Hv; try discriminate Hv;
    cbn [call_result run];
    unfold ftb8md_show_string, ftb8md_set_dimming, ftb8md_enter_standby,
      ftb8md_set_display_power, ftb8md_set_dot, ftb8md_set_segment,
      ftb8md_clear_display, ftb8md_write_custom_char, ftb8md_set_addressed_char;
    rewrite ?digit_out_of_range_in_0_7, ?char_index_out_of_range_in_0_7;
    destruct handle as [h|]; try (split; reflexivity);
    cbn [non_null andb] in Hv; try discriminate Hv.
  - destruct str as [s|]; [|split; reflexivity].
    rewrite andb_true_r in Hv. rewrite Hv. split; reflexivity.
  - rewrite Hv. split; reflexivity.
  - rewrite Hv. split; reflexivity.
  - destruct grid_data as [data|]; [|split; reflexivity].
    rewrite andb_true_r in Hv. rewrite Hv. split; reflexivity.
  - destruct (in_0_7 digit); cbn [andb negb] in *; [|split; reflexivity].
    rewrite Hv. split; reflexivity.
Qed.

Lemma invalid_arguments_rejected_witness :
  call_result all_succeed (call_write_custom_char (Some 1%nat) 8 (Some [1; 2; 3; 4; 5])) []
  = Some ESP_ERR_INVALID_ARG
  /\ run all_succeed (call_write_custom_char (Some 1%nat) 8 (Some [1; 2; 3; 4; 5])) [] = [].
Proof.
  apply (invalid_arguments_rejected all_succeed
           (call_write_custom_char (Some 1%nat) 8 (Some [1; 2; 3; 4; 5])) []).
  reflexivity.
Defined.

(** ** Results, for every call *)

(** [send_until_failure] on at least one packet ends with the transmission
    whose result it returns; those before it succeeded. *)
Lemma send_until_failure_result E h pkts : forall w,
  pkts <> [] ->
  exists oks p,
    send_until_failure E h pkts w
    = (fst (send_until_failure E h pkts w),
       w ++ ok_events h oks
         ++ [ESpiTransmit h p (fst (send_until_failure E h pkts w))]).
Proof.
  induction pkts as [|p pkts IH]; intros w Hne; [contradiction|].
  cbn [send_until_failure].
  destruct (spi_device_transmit_result E w h p =? ESP_OK) eqn:Hr; cbn [negb].
  - apply Z.eqb_eq in Hr. rewrite Hr.
    destruct pkts as [|q pkts].
    + exists [], p. reflexivity.
    + destruct (IH (w ++ [ESpiTransmit h p ESP_OK]) ltac:(discriminate))
        as (oks & p' & Hrun).
      exists (p :: oks), p'. rewrite Hrun at 1.
      cbn [ok_events map app]. now rewrite <- app_assoc.
  - exists [], p. reflexivity.
Qed.

(** A call that reaches [ftb8md_send_command] with a handle: its result is
    the result of its one transmission. *)
Ltac one_result h :=
  rewrite send_command_transmits by discriminate; cbn [fst snd];
  exists h, []; eexists; repeat split; reflexivity.

(** X2. A call with valid arguments always reaches the bus, on the handle
    it was given, and returns what the transport returned for the last
    packet it handed over; every packet before that one was accepted. So
    [ESP_OK] means that every transmission succeeded, and after a failure
    nothing more is sent. *)
Theorem valid_call_returns_last_transmission E c w r :
  args_valid c = true ->
  call_result E c w = Some r ->
  exists h oks p,
    handle_of c = Some h
    /\ run E c w = w ++ ok_events h oks ++ [ESpiTransmit h p r].
Proof.
  intros Hv Hr.
  destruct c as [host_id cs_pin reset_pin | handle digit str | handle level
                | handle standby | handle on | handle digit dot_on
                | handle digit segments | handle
                | handle char_index grid_data | handle digit char_index];
    cbn [call_result] in Hr; try discriminate Hr;
    injection Hr as <-; cbn [args_valid] in Hv; cbn [run handle_of];
    destruct handle as [h|]; cbn [non_null andb] in Hv; try discriminate Hv.
  - destruct str as [s|]; [|now rewrite andb_false_r in Hv].
    rewrite andb_true_r in Hv. apply in_0_7_spec in Hv.
    rewrite (show_string_transmits E h digit s w Hv). cbn [fst snd].
    exists h, []. eexists. split; reflexivity.
  - unfold ftb8md_set_dimming. cbv zeta. one_result h.
  - unfold ftb8md_enter_standby. cbv zeta. one_result h.
  - unfold ftb8md_set_display_power. cbv zeta. one_result h.
  - unfold ftb8md_set_dot. rewrite digit_out_of_range_in_0_7, Hv.
    cbn [negb]. cbv zeta. one_result h.
  - unfold ftb8md_set_segment. rewrite digit_out_of_range_in_0_7, Hv.
    cbn [negb]. cbv zeta. one_result h.
  - rewrite clear_display_sends.
    destruct (send_until_failure_result E h clear_packets w ltac:(discriminate))
      as (oks & p & Hrun).
    exists h, oks, p. split; [reflexivity|]. now rewrite Hrun at 1.
  - destruct grid_data as [data|]; [|now rewrite andb_false_r in Hv].
    rewrite andb_true_r in Hv.
    unfold ftb8md_write_custom_char. rewrite char_index_out_of_range_in_0_7, Hv.
    cbn [negb]. cbv zeta. one_result h.
  - apply andb_true_iff in Hv. destruct Hv as [Hd Hc].
    unfold ftb8md_set_addressed_char.
    rewrite digit_out_of_range_in_0_7, char_index_out_of_range_in_0_7, Hd, Hc.
    cbn [negb]. cbv zeta. one_result h.
Qed.

(** [ftb8md_clear_display] with the 5th dot-off refused. *)
Lemma valid_call_returns_last_transmission_witness :
  exists oks p,
    run (transmit_fails_at 5 ESP_FAIL) (call_clear_display (Some 1%nat)) []
    = [] ++ ok_events 1 oks ++ [ESpiTransmit 1 p ESP_FAIL].
Proof.
  destruct (valid_call_returns_last_transmission
              (transmit_fails_at 5 ESP_FAIL) (call_clear_display (Some 1%nat)) []
              ESP_FAIL eq_refl eq_refl)
    as (h & oks & p & Hh & Hrun).
  injection Hh as <-. exists oks, p. exact Hrun.
Defined.

(** ** Packets of the single-packet calls *)

(** X3. [ftb8md_set_dimming] sends [E4] followed by the level capped at
    240, for every level a [uint8_t] holds; levels up to 240 pass
    unchanged, so distinct levels up to 240 give distinct packets. *)
Theorem set_dimming_packet E h level w :
  0 <= level <= 255 ->
  let pkt := [CMD_DIMMING; Z.min level FTB8MD_MAX_DIMMING] in
  let ret := spi_device_transmit_result E w h pkt in
  ftb8md_set_dimming E (Some h) level w = (ret, w ++ [ESpiTransmit h pkt ret])
  /\ (level <= FTB8MD_MAX_DIMMING -> pkt = [CMD_DIMMING; level]).
Proof.
  intros Hl pkt ret. split.
  - unfold ftb8md_set_dimming. cbv zeta. rewrite uint8_small by lia.
    rewrite send_command_transmits by discriminate.
    subst ret pkt. unfold FTB8MD_MAX_DIMMING in *.
    rewrite Z.gtb_ltb. destruct (Z.ltb_spec 240 level).
    + now rewrite Z.min_r by lia.
    + rewrite Z.min_l by lia.
      cbn [firstn set_ctrl_arg set_ctrl_prefix array_set zero repeat].
      now rewrite (uint8_small level) by lia.
  - intros Hle. subst pkt. now rewrite Z.min_l.
Qed.

Lemma set_dimming_packet_witness :
  ftb8md_set_dimming all_succeed (Some 1%nat) 100 []
  = (ESP_OK, [ESpiTransmit 1 [228; 100] ESP_OK]).
Proof.
  refine (proj1 (set_dimming_packet all_succeed 1%nat 100 [] _)). lia.
Defined.

(** X4. For a digit in 0..7, [ftb8md_set_dot] sends a 2-byte ADRAM packet:
    prefix 011 in B7-B5 and the digit in B4-B0 of the first byte, pin E0
    (bit 0 of the second byte) set exactly when the dot is to be on, all
    other bits clear. *)
Theorem set_dot_packet E h digit (dot_on : bool) w :
  0 <= digit <= 7 ->
  let byte1 := 96 + digit in
  let byte2 : Z := if dot_on then 1 else 0 in
  let ret := spi_device_transmit_result E w h [byte1; byte2] in
  ftb8md_set_dot E (Some h) digit dot_on w
  = (ret, w ++ [ESpiTransmit h [byte1; byte2] ret])
  /\ bitfield_load 5 3 byte1 = CMD_PREFIX_ADRAM
  /\ bitfield_load 0 5 byte1 = digit
  /\ Z.testbit byte2 0 = dot_on
  /\ bitfield_load 1 7 byte2 = 0.
Proof.
  intros Hd byte1 byte2 ret. split.
  - exact (set_dot_transmits E h digit dot_on w Hd).
  - subst byte1 byte2. destruct dot_on; cases_0_7 Hd; repeat split.
Qed.

Lemma set_dot_packet_witness :
  ftb8md_set_dot all_succeed (Some 1%nat) 5 true []
  = (ESP_OK, [ESpiTransmit 1 [101; 1] ESP_OK]).
Proof.
  refine (proj1 (set_dot_packet all_succeed 1%nat 5 true [] _)). lia.
Defined.

(** X5. For a digit in 0..7, [ftb8md_set_segment] writes any byte value
    unchanged as the single character of a DCRAM packet: all 256 codes
    reach the controller, not only the printable ones. *)
Theorem set_segment_packet E h digit segments w :
  0 <= digit <= 7 ->
  0 <= segments <= 255 ->
  let pkt := [32 + digit; segments] in
  let ret := spi_device_transmit_result E w h pkt in
  ftb8md_set_segment E (Some h) digit segments w
  = (ret, w ++ [ESpiTransmit h pkt ret]).
Proof.
  intros Hd Hs pkt ret.
  pose proof (set_segment_transmits E h digit segments w Hd) as Hrun.
  cbv zeta in Hrun. now rewrite uint8_small in Hrun by lia.
Qed.

Lemma set_segment_packet_witness :
  ftb8md_set_segment all_succeed (Some 1%nat) 0 255 []
  = (ESP_OK, [ESpiTransmit 1 [32; 255] ESP_OK]).
Proof.
  apply (set_segment_packet all_succeed 1%nat 0 255 []); lia.
Defined.

(** X6. [ftb8md_set_display_power] sends [E8 00] to switch the display on
    and [EA 00] to switch it off. The display-on packet of registration is
    not the one of [ftb8md_set_display_power]: it has the same opcode but
    carries 7, the argument of the digit-count step, in its second byte. *)
Theorem set_display_power_packets E h w :
  let on := [CMD_DISPLAY_ON; 0] in
  let off := [CMD_DISPLAY_OFF; 0] in
  let ret_on := spi_device_transmit_result E w h on in
  let ret_off := spi_device_transmit_result E w h off in
  ftb8md_set_display_power E (Some h) true w
  = (ret_on, w ++ [ESpiTransmit h on ret_on])
  /\ ftb8md_set_display_power E (Some h) false w
     = (ret_off, w ++ [ESpiTransmit h off ret_off])
  /\ (forall host_id cs_pin reset_pin,
        reset_pin < 0 ->
        spi_bus_add_device_result E w host_id (dev_cfg_for cs_pin) = (ESP_OK, Some h) ->
        exists p1 p2 p3,
          transmitted (snd (ftb8md_device_register E host_id cs_pin reset_pin w))
          = transmitted w ++ [p1; p2; p3]
          /\ hd 0 p3 = hd 0 on /\ p3 = [CMD_DISPLAY_ON; 7] /\ p3 <> on).
Proof.
  cbv zeta. unfold ftb8md_set_display_power.
  rewrite !send_command_transmits by discriminate.
  repeat split.
  intros host_id cs_pin reset_pin Hpin Hadd.
  unfold ftb8md_device_register.
  replace (reset_pin >=? 0) with false
    by (symmetry; rewrite Z.geb_leb; apply Z.leb_gt; exact Hpin).
  rewrite (register_device_bound E host_id cs_pin h w Hadd). cbv zeta. cbn [snd].
  exists digit_count_packet, max_dimming_packet, display_on_packet.
  split; [|repeat split; discriminate].
  rewrite !transmitted_app. cbn [transmitted app].
  repeat match goal with
         | |- context [if ?b then [] else [ELogE ?f ?r]] => destruct b
         end; cbn [transmitted app]; rewrite ?app_nil_r, <- ?app_assoc; reflexivity.
Qed.

Lemma set_display_power_packets_witness :
  exists p1 p2 p3,
    transmitted (snd (ftb8md_device_register all_succeed 2 5 (-1) []))
    = transmitted [] ++ [p1; p2; p3]
    /\ hd 0 p3 = hd 0 [CMD_DISPLAY_ON; 0] /\ p3 = [CMD_DISPLAY_ON; 7]
    /\ p3 <> [CMD_DISPLAY_ON; 0].
Proof.
  apply (proj2 (proj2 (set_display_power_packets all_succeed 1%nat [])) 2 5 (-1)).
  - lia.
  - reflexivity.
Defined.

(** ** Edges of [ftb8md_show_string] *)

(** X7. The empty string is not rejected: for a digit in 0..7 it still
    costs one transmission, of the DCRAM command byte alone. *)
Theorem show_string_empty E h digit s w :
  0 <= digit <= 7 ->
  strlen s = O ->
  let pkt := [32 + digit] in
  let ret := spi_device_transmit_result E w h pkt in
  ftb8md_show_string E (Some h) digit (Some s) w
  = (ret, w ++ [ESpiTransmit h pkt ret]).
Proof.
  intros Hd Hs pkt ret.
  pose proof (show_string_transmits E h digit s w Hd) as Hrun.
  cbv zeta in Hrun. rewrite Hs in Hrun. exact Hrun.
Qed.

Lemma show_string_empty_witness :
  ftb8md_show_string all_succeed (Some 1%nat) 3 (Some [0]) []
  = (ESP_OK, [ESpiTransmit 1 [35] ESP_OK]).
Proof.
  apply (show_string_empty all_succeed 1%nat 3 [0] []); [lia|reflexivity].
Defined.

(** X8. A write never runs past the last digit: for a start digit in
    0..7 the characters sent end at digit 7 at the latest, and exactly
    there when the string is long enough to reach it. *)
Theorem show_string_stays_on_display E h digit s w :
  0 <= digit <= 7 ->
  exists chars ret,
    ftb8md_show_string E (Some h) digit (Some s) w
    = (ret, w ++ [ESpiTransmit h ((32 + digit) :: chars) ret])
    /\ digit + Z.of_nat (List.length chars) <= 8
    /\ (8 - digit <= Z.of_nat (strlen s) ->
        digit + Z.of_nat (List.length chars) = 8).
Proof.
  intros Hd.
  pose proof (show_string_transmits E h digit s w Hd) as Hrun.
  cbv zeta in Hrun. eexists. eexists. split; [exact Hrun|].
  pose proof (strlen_le_length s) as Hs.
  rewrite length_map, length_firstn. split; lia.
Qed.

Lemma show_string_stays_on_display_witness :
  exists chars ret,
    ftb8md_show_string all_succeed (Some 1%nat) 6 (Some [72; 69; 76; 76; 79; 0]) []
    = (ret, [] ++ [ESpiTransmit 1 ((32 + 6) :: chars) ret])
    /\ 6 + Z.of_nat (List.length chars) = 8.
Proof.
  destruct (show_string_stays_on_display all_succeed 1%nat 6
              [72; 69; 76; 76; 79; 0] []) as (chars & ret & Hrun & _ & Hfull);
    [lia|].
  exists chars, ret. split; [exact Hrun|]. apply Hfull. simpl. lia.
Defined.

Lemma strlen_app_nul a b :
  Forall (fun c => c <> 0) a -> strlen (a ++ 0 :: b) = List.length a.
Proof.
  induction 1 as [|c a Hc _ IH]; simpl; [reflexivity|].
  apply Z.eqb_neq in Hc. now rewrite Hc, IH.
Qed.

Lemma strlen_no_nul a : Forall (fun c => c <> 0) a -> strlen a = List.length a.
Proof.
  induction 1 as [|c a Hc _ IH]; simpl; [reflexivity|].
  apply Z.eqb_neq in Hc. now rewrite Hc, IH.
Qed.

(** X9. Only the characters before the first NUL count: whatever lies in
    memory behind the terminator, the call does the same as for the
    characters alone. *)
Theorem show_string_stops_at_nul E handle digit a b w :
  Forall (fun c => c <> 0) a ->
  ftb8md_show_string E handle digit (Some (a ++ 0 :: b)) w
  = ftb8md_show_string E handle digit (Some a) w.
Proof.
  intros Ha. destruct handle as [h|]; [|reflexivity].
  destruct (in_0_7 digit) eqn:Hd.
  - apply in_0_7_spec in Hd.
    rewrite !show_string_transmits by exact Hd. cbv zeta.
    rewrite strlen_app_nul, strlen_no_nul by exact Ha.
    rewrite firstn_app.
    replace (Nat.min (List.length a) (Z.to_nat (8 - digit)) - List.length a)%nat
      with O by lia.
    now rewrite firstn_O, app_nil_r.
  - unfold ftb8md_show_string. now rewrite digit_out_of_range_in_0_7, Hd.
Qed.

Lemma show_string_stops_at_nul_witness :
  ftb8md_show_string all_succeed (Some 1%nat) 0 (Some ([72; 73] ++ 0 :: [88; 89])) []
  = ftb8md_show_string all_succeed (Some 1%nat) 0 (Some [72; 73]) [].
Proof.
  apply (show_string_stops_at_nul all_succeed (Some 1%nat) 0 [72; 73] [88; 89] []).
  repeat constructor; discriminate.
Defined.

(** ** [ftb8md_clear_display] as a composition *)

(** X10. Clearing is writing eight spaces from digit 0 with
    [ftb8md_show_string] and, if that succeeded, switching the dots off
    digit by digit: the same trace and the same result, whatever the
    transport answers. *)
Theorem clear_display_is_show_string_then_dots E h w :
  ftb8md_clear_display E (Some h) w
  = (ret <- ftb8md_show_string E (Some h) 0 (Some (repeat 0x20 8 ++ [0])) ;;
     if negb (ret =? ESP_OK) then Return ret
     else clear_dots E (Some h) 0 8) w.
Proof.
  unfold Bind.
  rewrite (show_string_transmits E h 0 (repeat 32 8 ++ [0]) w) by lia.
  unfold ftb8md_clear_display. cbv zeta. unfold Bind.
  rewrite send_command_transmits by discriminate.
  reflexivity.
Qed.

(** ** Registration, whatever the collaborators answer *)

(** Decide every test that guards an error log line. *)
Ltac split_logs :=
  repeat match goal with
         | |- context [if ?b then [] else [ELogE ?f ?r]] => destruct b
         end.

(** What [register_device] does: the binding, then bus traffic and log
    lines only; nothing is transmitted unless a handle is returned, and
    then the three configuration packets are, on that handle, with the
    success line last. *)
Lemma register_device_outcome E host_id cs_pin w :
  let r := spi_bus_add_device_result E w host_id (dev_cfg_for cs_pin) in
  exists res evs,
    register_device E host_id cs_pin w
    = (res, w ++ ESpiBusAddDevice host_id (dev_cfg_for cs_pin) (fst r) (snd r) :: evs)
    /\ gpio_and_delay_events evs = []
    /\ match res with
       | None => transmitted evs = []
       | Some h =>
           transmitted evs = [[0xE0; 7]; [0xE4; 240]; [0xE8; 7]]
           /\ transmit_handles evs = [h; h; h]
           /\ exists before,
                evs = before ++ [ELogI "VFD display initialized successfully"]
       end.
Proof.
  intros r. subst r.
  destruct (spi_bus_add_device_result E w host_id (dev_cfg_for cs_pin))
    as [ret handle] eqn:Hadd.
  destruct (Z.eq_dec ret ESP_OK) as [->|Hne].
  - destruct handle as [h|].
    + rewrite (register_device_bound E host_id cs_pin h w Hadd).
      cbv zeta. cbn [fst snd]. rewrite <- !app_assoc. cbn [app].
      split_logs;
        (eexists; eexists; split; [reflexivity|];
         repeat split;
         match goal with
         | |- exists before, ?l = _ => exists (removelast l); reflexivity
         end).
    + unfold register_device, Bind, spi_bus_add_device. cbv zeta.
      rewrite Hadd. cbn. rewrite <- !app_assoc. cbn [app].
      eexists. eexists. split; [reflexivity|split; reflexivity].
  - rewrite register_device_bind_failure by (rewrite Hadd; exact Hne).
    cbv zeta. rewrite Hadd. cbn [fst snd].
    eexists. eexists. split; [reflexivity|]. split; reflexivity.
Qed.

(** The same for the whole of [ftb8md_device_register]. *)
Lemma register_outcome E host_id cs_pin reset_pin w :
  exists res evs,
    ftb8md_device_register E host_id cs_pin reset_pin w = (res, w ++ evs)
    /\ match res with
       | None => transmitted evs = []
       | Some h =>
           transmitted evs = [[0xE0; 7]; [0xE4; 240]; [0xE8; 7]]
           /\ transmit_handles evs = [h; h; h]
           /\ exists before,
                evs = before ++ [ELogI "VFD display initialized successfully"]
       end.
Proof.
  unfold ftb8md_device_register.
  destruct (reset_pin >=? 0).
  - cbv zeta. unfold Bind at 1. unfold gpio_config.
    destruct (negb (gpio_config_result E w (io_conf_for reset_pin) =? ESP_OK)).
    + cbn. rewrite <- !app_assoc. cbn [app].
      eexists. eexists. split; reflexivity.
    + unfold Bind, gpio_set_level, vTaskDelay_ms, emit.
      match goal with
      | |- context [register_device E host_id cs_pin ?w0] =>
          destruct (register_device_outcome E host_id cs_pin w0)
            as (res & evs & Hrun & _ & Hres); rewrite Hrun
      end.
      rewrite <- !app_assoc. cbn [app].
      exists res. eexists. split; [reflexivity|].
      destruct res as [h|]; [|exact Hres].
      destruct Hres as (Htx & Hh & before & ->).
      repeat split; [exact Htx|exact Hh|].
      eexists. rewrite !app_comm_cons. reflexivity.
  - destruct (register_device_outcome E host_id cs_pin w)
      as (res & evs & Hrun & _ & Hres).
    rewrite Hrun. exists res. eexists. split; [reflexivity|].
    destruct res as [h|]; [|exact Hres].
    destruct Hres as (Htx & Hh & before & ->).
    repeat split; [exact Htx|exact Hh|].
    eexists. rewrite app_comm_cons. reflexivity.
Qed.

(** X11. Only a registration that returns a handle uses the bus: with
    [NULL] returned no packet was transmitted; with a handle returned
    exactly the three configuration packets [E0 07], [E4 F0], [E8 07] were
    handed to the transport, all on that handle, and the last thing
    registration did was to log success, whether or not those
    transmissions succeeded. *)
Theorem register_handle_and_traffic E host_id cs_pin reset_pin w :
  exists res evs,
    ftb8md_device_register E host_id cs_pin reset_pin w = (res, w ++ evs)
    /\ match res with
       | None => transmitted evs = []
       | Some h =>
           transmitted evs = [[0xE0; 7]; [0xE4; 240]; [0xE8; 7]]
           /\ transmit_handles evs = [h; h; h]
           /\ exists before,
                evs = before ++ [ELogI "VFD display initialized successfully"]
       end.
Proof. apply register_outcome. Qed.

(** X12. Without a reset pin (a negative pin number) registration touches
    no GPIO and requests no delay: the first thing it does is to bind the
    device, and only bus traffic and log lines follow. *)
Theorem register_without_reset_pin E host_id cs_pin reset_pin w :
  reset_pin < 0 ->
  let r := spi_bus_add_device_result E w host_id (dev_cfg_for cs_pin) in
  exists evs,
    snd (ftb8md_device_register E host_id cs_pin reset_pin w)
    = w ++ ESpiBusAddDevice host_id (dev_cfg_for cs_pin) (fst r) (snd r) :: evs
    /\ gpio_and_delay_events evs = [].
Proof.
  intros Hpin r. unfold ftb8md_device_register.
  replace (reset_pin >=? 0) with false
    by (symmetry; rewrite Z.geb_leb; apply Z.leb_gt; exact Hpin).
  destruct (register_device_outcome E host_id cs_pin w)
    as (res & evs & Hrun & Hg & _).
  exists evs. rewrite Hrun. split; [reflexivity|exact Hg].
Qed.

Lemma register_without_reset_pin_witness :
  exists evs,
    snd (ftb8md_device_register all_succeed 2 5 (-1) [])
    = [] ++ ESpiBusAddDevice 2 (dev_cfg_for 5) ESP_OK (Some 1%nat) :: evs
    /\ gpio_and_delay_events evs = [].
Proof.
  apply (register_without_reset_pin all_succeed 2 5 (-1) []). lia.
Defined.

(** X13. When the reset pin cannot be configured, registration gives up at
    once: it logs the error and returns [NULL]; the pin is not driven, no
    delay is requested, the device is not bound and the bus is not used. *)
Theorem register_gpio_config_failure E host_id cs_pin reset_pin err w :
  0 <= reset_pin ->
  gpio_config_result E w (io_conf_for reset_pin) = err ->
  err <> ESP_OK ->
  ftb8md_device_register E host_id cs_pin reset_pin w
  = (NULL, w ++ [EGpioConfig (io_conf_for reset_pin) err;
                 ELogE "Failed to configure reset pin: %s" err]).
Proof.
  intros Hpin Hgpio Hne. unfold ftb8md_device_register.
  replace (reset_pin >=? 0) with true
    by (symmetry; rewrite Z.geb_leb; apply Z.leb_le; exact Hpin).
  cbv zeta. unfold Bind, gpio_config. rewrite Hgpio.
  apply Z.eqb_neq in Hne. rewrite Hne. cbn. now rewrite <- app_assoc.
Qed.

(** An environment whose GPIO configuration fails. *)
Lemma register_gpio_config_failure_witness :
  ftb8md_device_register
    {| gpio_config_result := fun _ _ => ESP_FAIL;
       spi_bus_add_device_result := fun _ _ _ => (ESP_OK, Some 1%nat);
       spi_device_transmit_result := fun _ _ _ => ESP_OK |} 2 5 4 []
  = (NULL, [EGpioConfig (io_conf_for 4) ESP_FAIL;
            ELogE "Failed to configure reset pin: %s" ESP_FAIL]).
Proof.
  apply (register_gpio_config_failure _ 2 5 4 ESP_FAIL []);
    [lia|reflexivity|discriminate].
Defined.

(** X14. When the reset pulse went through but the bus refuses to bind the
    device, registration logs the error and returns [NULL] without any
    transmission. *)
Theorem register_bind_failure_after_reset E host_id cs_pin reset_pin err handle w :
  let w0 := w ++ [EGpioConfig (io_conf_for reset_pin) ESP_OK;
                  EGpioSetLevel reset_pin 0; ETaskDelayMs 10;
                  EGpioSetLevel reset_pin 1; ETaskDelayMs 10] in
  0 <= reset_pin ->
  gpio_config_result E w (io_conf_for reset_pin) = ESP_OK ->
  spi_bus_add_device_result E w0 host_id (dev_cfg_for cs_pin) = (err, handle) ->
  err <> ESP_OK ->
  ftb8md_device_register E host_id cs_pin reset_pin w
  = (NULL, w0 ++ [ESpiBusAddDevice host_id (dev_cfg_for cs_pin) err handle;
                  ELogE "Failed to add SPI device: %s" err]).
Proof.
  intros w0 Hpin Hgpio Hadd Hne. unfold ftb8md_device_register.
  replace (reset_pin >=? 0) with true
    by (symmetry; rewrite Z.geb_leb; apply Z.leb_le; exact Hpin).
  cbv zeta. unfold Bind at 1. unfold gpio_config.
  rewrite Hgpio. cbn [Z.eqb ESP_OK negb].
  unfold Bind, gpio_set_level, vTaskDelay_ms, emit.
  repeat rewrite <- app_assoc. cbn [app]. fold w0.
  rewrite register_device_bind_failure by (rewrite Hadd; exact Hne).
  cbv zeta. now rewrite Hadd.
Qed.

(** An environment whose bus refuses the device. *)
Lemma register_bind_failure_after_reset_witness :
  ftb8md_device_register
    {| gpio_config_result := fun _ _ => ESP_OK;
       spi_bus_add_device_result := fun _ _ _ => (ESP_FAIL, NULL);
       spi_device_transmit_result := fun _ _ _ => ESP_OK |} 2 5 4 []
  = (NULL, [EGpioConfig (io_conf_for 4) ESP_OK;
            EGpioSetLevel 4 0; ETaskDelayMs 10; EGpioSetLevel 4 1; ETaskDelayMs 10;
            ESpiBusAddDevice 2 (dev_cfg_for 5) ESP_FAIL NULL;
            ELogE "Failed to add SPI device: %s" ESP_FAIL]).
Proof.
  apply (register_bind_failure_after_reset _ 2 5 4 ESP_FAIL NULL []);
    [lia|reflexivity|reflexivity|discriminate].
Defined.

(** ** What reaches the wire *)

Lemma uint8_is_byte v : is_byte (uint8 v).
Proof. unfold is_byte, uint8. apply Z.mod_pos_bound. lia. Qed.

Lemma is_byte_hd data : Forall is_byte data -> is_byte (hd 0 data).
Proof. destruct 1; simpl; [unfold is_byte; lia|assumption]. Qed.

Lemma is_byte_tl data : Forall is_byte data -> Forall is_byte (tl data).
Proof. destruct 1; simpl; [constructor|assumption]. Qed.

Lemma dcram_byte_ok digit :
  0 <= digit <= 7 -> is_command_byte (32 + digit) = true /\ is_byte (32 + digit).
Proof. intros H. unfold is_byte. split; [cases_0_7 H; reflexivity|lia]. Qed.

Lemma adram_byte_ok digit :
  0 <= digit <= 7 -> is_command_byte (96 + digit) = true /\ is_byte (96 + digit).
Proof. intros H. unfold is_byte. split; [cases_0_7 H; reflexivity|lia]. Qed.

Lemma cgram_byte_ok i :
  0 <= i <= 7 -> is_command_byte (64 + i) = true /\ is_byte (64 + i).
Proof. intros H. unfold is_byte. split; [cases_0_7 H; reflexivity|lia]. Qed.

Lemma clear_packets_well_formed : Forall packet_well_formed clear_packets.
Proof.
  unfold clear_packets, packet_well_formed, is_byte.
  repeat (apply Forall_cons || apply Forall_nil);
    (split; [reflexivity|]);
    repeat (apply Forall_cons || apply Forall_nil); cbv; split; congruence.
Qed.

(** A call that was rejected: nothing appended. *)
Ltac nothing_sent :=
  exists []; split; [now rewrite app_nil_r|constructor].

(** A call whose one packet is [byte1 :: rest]. *)
Ltac one_well_formed Hbyte1 :=
  eexists; split; [reflexivity|];
  cbn [transmitted]; constructor; [|constructor];
  split; [exact (proj1 Hbyte1)|];
  constructor; [exact (proj2 Hbyte1)|].

Lemma packets_well_formed E c w :
  caller_bytes_ok c ->
  exists evs, run E c w = w ++ evs /\ Forall packet_well_formed (transmitted evs).
Proof.
  intros Hbytes.
  destruct c as [host_id cs_pin reset_pin | handle digit str | handle level
                | handle standby | handle on | handle digit dot_on
                | handle digit segments | handle
                | handle char_index grid_data | handle digit char_index];
    cbn [run].
  - (* ftb8md_device_register *)
    destruct (register_outcome E host_id cs_pin reset_pin w)
      as (res & evs & Hrun & Hres).
    rewrite Hrun. exists evs. split; [reflexivity|].
    destruct res as [h|]; [destruct Hres as (-> & _)|rewrite Hres; constructor].
    unfold packet_well_formed, is_byte.
    repeat (apply Forall_cons || apply Forall_nil);
      (split; [reflexivity|]);
      repeat (apply Forall_cons || apply Forall_nil); lia.
  - (* ftb8md_show_string *)
    destruct handle as [h|]; [|nothing_sent].
    destruct str as [s|]; [|nothing_sent].
    destruct (in_0_7 digit) eqn:Hd.
    + apply in_0_7_spec in Hd.
      rewrite (show_string_transmits E h digit s w Hd). cbn [snd].
      one_well_formed (dcram_byte_ok digit Hd).
      apply Forall_map, Forall_forall. intros; apply uint8_is_byte.
    + unfold ftb8md_show_string. rewrite digit_out_of_range_in_0_7, Hd.
      nothing_sent.
  - (* ftb8md_set_dimming *)
    destruct handle as [h|]; [|nothing_sent].
    unfold ftb8md_set_dimming. cbv zeta.
    rewrite send_command_transmits by discriminate. cbn [snd].
    eexists; split; [reflexivity|].
    cbn [transmitted firstn set_ctrl_arg set_ctrl_prefix array_set zero repeat].
    constructor; [|constructor]. split; [reflexivity|].
    repeat constructor; apply uint8_is_byte.
  - (* ftb8md_enter_standby *)
    destruct handle as [h|]; [|nothing_sent].
    unfold ftb8md_enter_standby. cbv zeta.
    rewrite send_command_transmits by discriminate. cbn [snd].
    eexists; split; [reflexivity|].
    cbn [transmitted]. constructor; [|constructor].
    unfold packet_well_formed, is_byte.
    destruct standby; (split; [reflexivity|]);
      repeat (apply Forall_cons || apply Forall_nil); cbv; split; congruence.
  - (* ftb8md_set_display_power *)
    destruct handle as [h|]; [|nothing_sent].
    unfold ftb8md_set_display_power. cbv zeta.
    rewrite send_command_transmits by discriminate. cbn [snd].
    eexists; split; [reflexivity|].
    cbn [transmitted]. constructor; [|constructor].
    unfold packet_well_formed, is_byte.
    destruct on; (split; [reflexivity|]);
      repeat (apply Forall_cons || apply Forall_nil); cbv; split; congruence.
  - (* ftb8md_set_dot *)
    destruct handle as [h|]; [|nothing_sent].
    destruct (in_0_7 digit) eqn:Hd.
    + apply in_0_7_spec in Hd.
      rewrite (set_dot_transmits E h digit dot_on w Hd). cbn [snd].
      one_well_formed (adram_byte_ok digit Hd).
      unfold is_byte. destruct dot_on; repeat constructor; lia.
    + unfold ftb8md_set_dot. rewrite digit_out_of_range_in_0_7, Hd.
      nothing_sent.
  - (* ftb8md_set_segment *)
    destruct handle as [h|]; [|nothing_sent].
    destruct (in_0_7 digit) eqn:Hd.
    + apply in_0_7_spec in Hd.
      rewrite (set_segment_transmits E h digit segments w Hd). cbn [snd].
      one_well_formed (dcram_byte_ok digit Hd).
      repeat constructor; apply uint8_is_byte.
    + unfold ftb8md_set_segment. rewrite digit_out_of_range_in_0_7, Hd.
      nothing_sent.
  - (* ftb8md_clear_display *)
    destruct handle as [h|]; [|nothing_sent].
    rewrite clear_display_sends.
    destruct (send_until_failure_transmitted E h clear_packets w)
      as (evs & k & Hrun & Htx & _).
    exists evs. split; [exact Hrun|].
    rewrite Htx. apply Forall_firstn_keep, clear_packets_well_formed.
  - (* ftb8md_write_custom_char *)
    destruct handle as [h|]; [|nothing_sent].
    destruct grid_data as [data|]; [|nothing_sent].
    cbn [caller_bytes_ok] in Hbytes.
    destruct (in_0_7 char_index) eqn:Hc.
    + apply in_0_7_spec in Hc.
      unfold ftb8md_write_custom_char.
      rewrite char_index_in_range by exact Hc. cbv zeta.
      rewrite cgram_header by exact Hc.
      rewrite send_command_transmits by discriminate. cbn [snd].
      cbn [memcpy array_set repeat firstn].
      one_well_formed (cgram_byte_ok char_index Hc).
      pose proof (is_byte_tl _ Hbytes) as H1.
      pose proof (is_byte_tl _ H1) as H2.
      pose proof (is_byte_tl _ H2) as H3.
      pose proof (is_byte_tl _ H3) as H4.
      repeat (apply Forall_cons || apply Forall_nil);
        apply is_byte_hd; assumption.
    + unfold ftb8md_write_custom_char.
      rewrite char_index_out_of_range_in_0_7, Hc. nothing_sent.
  - (* ftb8md_set_addressed_char *)
    destruct handle as [h|]; [|nothing_sent].
    unfold ftb8md_set_addressed_char.
    rewrite digit_out_of_range_in_0_7, char_index_out_of_range_in_0_7.
    destruct (in_0_7 digit) eqn:Hd; cbn [negb]; [|nothing_sent].
    destruct (in_0_7 char_index) eqn:Hc; cbn [negb]; [|nothing_sent].
    apply in_0_7_spec in Hd. cbv zeta.
    rewrite dcram_header by exact Hd.
    rewrite send_command_transmits by discriminate. cbn [snd].
    cbn [set_dcram_chr array_set repeat firstn Nat.add].
    one_well_formed (dcram_byte_ok digit Hd).
    repeat constructor; apply uint8_is_byte.
Qed.

(** X15. Whatever the call, the trace so far and the answers of the
    collaborators: every packet handed to the transport starts with a
    DCRAM, CGRAM or ADRAM command byte over an address 0..7 or with one of
    the six control opcodes (never a URAM write, never a reserved bit set),
    and every value in it fits a byte, provided the pattern given to
    [ftb8md_write_custom_char] consists of bytes. *)
Theorem transmitted_packets_well_formed E c w :
  caller_bytes_ok c ->
  exists evs,
    run E c w = w ++ evs
    /\ Forall (fun p => is_command_byte (hd 0 p) = true
                        /\ Forall (fun v => 0 <= v < 256) p)
         (transmitted evs).
Proof. apply packets_well_formed. Qed.

Lemma transmitted_packets_well_formed_witness :
  exists evs,
    run all_succeed (call_write_custom_char (Some 1%nat) 3 (Some [255; 0; 127; 128; 1])) []
    = [] ++ evs
    /\ Forall (fun p => is_command_byte (hd 0 p) = true
                        /\ Forall (fun v => 0 <= v < 256) p)
         (transmitted evs).
Proof.
  apply (transmitted_packets_well_formed all_succeed
           (call_write_custom_char (Some 1%nat) 3 (Some [255; 0; 127; 128; 1])) []).
  repeat constructor; discriminate.
Defined.

(** ** printf conversions *)

Ltac div_mod_lia := Z.to_euclidean_division_equations; lia.

(** Evaluate the padding of [format_d] once the digits are known. *)
Ltac pad_digits := cbn [List.length repeat Nat.sub app].

(** Two lists of digits, equal element by element by arithmetic. *)
Ltac digits_eq :=
  repeat (apply (f_equal2 (@cons Z)); [div_mod_lia|]); reflexivity.

(** [%02d] of a number below 100: its two decimal digits. *)
Lemma format_02d v :
  0 <= v <= 99 -> format_d true 2 v = [48 + v / 10; 48 + v mod 10].
Proof.
  intros Hv. unfold format_d. rewrite Z.abs_eq by lia.
  replace (v <? 0) with false by (symmetry; apply Z.ltb_ge; lia).
  cbn [decimal_digits].
  destruct (Z.eqb_spec (v / 10) 0) as [H1|H1].
  - pad_digits. now rewrite H1.
  - destruct (Z.eqb_spec (v / 10 / 10) 0) as [H2|H2]; [|exfalso; div_mod_lia].
    pad_digits. now rewrite (Z.mod_small (v / 10)) by div_mod_lia.
Qed.

(** [%2d] of a number from 1 to 12: a space or the tens digit, then the
    units digit. *)
Lemma format_2d v :
  1 <= v <= 12 ->
  format_d false 2 v = [if v <? 10 then 32 else 49; 48 + v mod 10].
Proof.
  intros Hv. unfold format_d. rewrite Z.abs_eq by lia.
  replace (v <? 0) with false by (symmetry; apply Z.ltb_ge; lia).
  cbn [decimal_digits].
  destruct (Z.eqb_spec (v / 10) 0) as [H1|H1].
  - replace (v <? 10) with true by (symmetry; apply Z.ltb_lt; div_mod_lia).
    reflexivity.
  - destruct (Z.eqb_spec (v / 10 / 10) 0) as [H2|H2]; [|exfalso; div_mod_lia].
    replace (v <? 10) with false by (symmetry; apply Z.ltb_ge; div_mod_lia).
    pad_digits. replace ((v / 10) mod 10) with 1 by div_mod_lia. reflexivity.
Qed.

(** [%04d] of a number below 10000: its four decimal digits. *)
Lemma format_04d v :
  0 <= v <= 9999 ->
  format_d true 4 v
  = [48 + v / 1000; 48 + (v / 100) mod 10; 48 + (v / 10) mod 10; 48 + v mod 10].
Proof.
  intros Hv. unfold format_d. rewrite Z.abs_eq by lia.
  replace (v <? 0) with false by (symmetry; apply Z.ltb_ge; lia).
  cbn [decimal_digits].
  assert (H100 : v / 10 / 10 = v / 100) by (rewrite Z.div_div by lia; reflexivity).
  assert (H1000 : v / 10 / 10 / 10 = v / 1000)
    by (rewrite !Z.div_div by lia; reflexivity).
  rewrite !H1000, !H100.
  destruct (Z.eqb_spec (v / 10) 0) as [H1|H1].
  { pad_digits. digits_eq. }
  destruct (Z.eqb_spec (v / 100) 0) as [H2|H2].
  { pad_digits. digits_eq. }
  destruct (Z.eqb_spec (v / 1000) 0) as [H3|H3].
  { pad_digits. digits_eq. }
  destruct (Z.eqb_spec (v / 1000 / 10) 0) as [H4|H4]; [|exfalso; div_mod_lia].
  pad_digits. digits_eq.
Qed.

(** A full line: eight non-NUL bytes and the terminator, shown from digit
    0, go out unchanged behind the DCRAM byte. *)
Lemma show_string_full_line E h a w :
  List.length a = 8%nat ->
  Forall (fun c => 1 <= c <= 255) a ->
  ftb8md_show_string E (Some h) 0 (Some (a ++ [0])) w
  = (spi_device_transmit_result E w h (32 :: a),
     w ++ [ESpiTransmit h (32 :: a) (spi_device_transmit_result E w h (32 :: a))]).
Proof.
  intros Hlen Ha.
  rewrite show_string_transmits by lia. cbv zeta.
  rewrite strlen_app_nul
    by (eapply Forall_impl; [|exact Ha]; cbv beta; intros; lia).
  replace (Nat.min (List.length a) (Z.to_nat (8 - 0))) with (List.length a)
    by (rewrite Hlen; reflexivity).
  rewrite firstn_app, firstn_all, Nat.sub_diag, firstn_O, app_nil_r.
  rewrite map_uint8_bytes
    by (eapply Forall_impl; [|exact Ha]; cbv beta; intros; lia).
  reflexivity.
Qed.

(** ** The clock example: what each display function sends *)

(** X16. [display_time_24h], for a time of day and a non-null handle: one
    DCRAM packet from digit 0 with the two digits each of hour, minute and
    second and two spaces, then the dots of digits 1 and 3, both on or both
    off as [blink_colon] says. The three transmissions are made whatever
    the transport answers; the results are dropped. *)
Theorem display_time_24h_packets E h timeinfo (blink_colon : bool) w :
  0 <= tm_hour timeinfo <= 23 ->
  0 <= tm_min timeinfo <= 59 ->
  0 <= tm_sec timeinfo <= 60 ->
  let line := [48 + tm_hour timeinfo / 10; 48 + tm_hour timeinfo mod 10;
               48 + tm_min timeinfo / 10; 48 + tm_min timeinfo mod 10;
               48 + tm_sec timeinfo / 10; 48 + tm_sec timeinfo mod 10;
               32; 32] in
  let dot : Z := if blink_colon then 1 else 0 in
  let w1 := w ++ [ESpiTransmit h (32 :: line)
                    (spi_device_transmit_result E w h (32 :: line))] in
  let w2 := w1 ++ [ESpiTransmit h [97; dot]
                     (spi_device_transmit_result E w1 h [97; dot])] in
  display_time_24h E (Some h) timeinfo blink_colon w
  = (tt, w2 ++ [ESpiTransmit h [99; dot]
                  (spi_device_transmit_result E w2 h [99; dot])]).
Proof.
  intros Hh Hm Hs line dot w1 w2.
  unfold display_time_24h.
  rewrite !format_02d by lia.
  change (snprintf 9 _) with (line ++ [0]).
  cbv zeta. unfold Bind at 1.
  rewrite show_string_full_line;
    [|reflexivity|subst line; repeat constructor; div_mod_lia].
  fold w1. unfold Bind, Return.
  destruct blink_colon;
    rewrite (set_dot_transmits E h 1) by lia; fold w2;
    rewrite (set_dot_transmits E h 3) by lia; reflexivity.
Qed.

Lemma display_time_24h_packets_witness :
  display_time_24h all_succeed (Some 1%nat) sample_time true []
  = (tt, [ESpiTransmit 1 [32; 49; 55; 48; 53; 48; 57; 32; 32] ESP_OK;
          ESpiTransmit 1 [97; 1] ESP_OK; ESpiTransmit 1 [99; 1] ESP_OK]).
Proof.
  apply (display_time_24h_packets all_succeed 1%nat sample_time true []);
    simpl; lia.
Defined.

(** X17. [display_time_12h], for a time of day and a non-null handle,
    shows the hour of the 12-hour clock: [(hour + 11) mod 12 + 1], which
    is 12 at midnight and at noon, padded with a space below 10; then the
    two digits of the minute, "AM" before noon and "PM" from noon on, and
    two spaces; then only the dot of digit 1, as [blink_colon] says. *)
Theorem display_time_12h_packets E h timeinfo (blink_colon : bool) w :
  0 <= tm_hour timeinfo <= 23 ->
  0 <= tm_min timeinfo <= 59 ->
  let hour12 := (tm_hour timeinfo + 11) mod 12 + 1 in
  let line := [if hour12 <? 10 then 32 else 49; 48 + hour12 mod 10;
               48 + tm_min timeinfo / 10; 48 + tm_min timeinfo mod 10;
               if tm_hour timeinfo <? 12 then 65 else 80; 77;
               32; 32] in
  let dot : Z := if blink_colon then 1 else 0 in
  let w1 := w ++ [ESpiTransmit h (32 :: line)
                    (spi_device_transmit_result E w h (32 :: line))] in
  display_time_12h E (Some h) timeinfo blink_colon w
  = (tt, w1 ++ [ESpiTransmit h [97; dot]
                  (spi_device_transmit_result E w1 h [97; dot])])
  /\ 1 <= hour12 <= 12.
Proof.
  intros Hh Hm hour12 line dot w1.
  split; [|subst hour12; div_mod_lia].
  unfold display_time_12h. cbv zeta.
  rewrite Z.geb_leb, Z.gtb_ltb.
  assert (Hline :
    forall hour ampm,
      hour = hour12 ->
      ampm = (if tm_hour timeinfo <? 12 then 65 else 80) ->
      snprintf 9 (format_d false 2 hour ++ format_d true 2 (tm_min timeinfo)
                  ++ [ampm; 77] ++ [32; 32])
      = line ++ [0]).
  { intros hour ampm -> ->.
    rewrite format_2d by (subst hour12; div_mod_lia).
    rewrite format_02d by lia. reflexivity. }
  assert (Hrun :
    forall time_str,
      time_str = line ++ [0] ->
      (ftb8md_show_string E (Some h) 0 (Some time_str) ;;;
       if blink_colon
       then ftb8md_set_dot E (Some h) 1 true ;;; Return tt
       else ftb8md_set_dot E (Some h) 1 false ;;; Return tt) w
      = (tt, w1 ++ [ESpiTransmit h [97; dot]
                      (spi_device_transmit_result E w1 h [97; dot])])).
  { intros time_str ->. unfold Bind at 1.
    rewrite show_string_full_line; [|reflexivity|].
    - fold w1. unfold Bind, Return.
      destruct blink_colon; rewrite (set_dot_transmits E h 1) by lia; reflexivity.
    - subst line. repeat constructor;
        try (destruct (hour12 <? 10); lia);
        try (destruct (tm_hour timeinfo <? 12); lia);
        subst hour12; div_mod_lia. }
  destruct (Z.leb_spec 12 (tm_hour timeinfo)) as [Hpm|Ham].
  - destruct (Z.ltb_spec 12 (tm_hour timeinfo)) as [Hgt|Hnoon].
    + replace (tm_hour timeinfo - 12 =? 0) with false
        by (symmetry; apply Z.eqb_neq; lia).
      apply Hrun, Hline.
      * subst hour12; div_mod_lia.
      * now replace (tm_hour timeinfo <? 12) with false
          by (symmetry; apply Z.ltb_ge; lia).
    + replace (tm_hour timeinfo =? 0) with false
        by (symmetry; apply Z.eqb_neq; lia).
      apply Hrun, Hline.
      * subst hour12; div_mod_lia.
      * now replace (tm_hour timeinfo <? 12) with false
          by (symmetry; apply Z.ltb_ge; lia).
  - destruct (Z.eqb_spec (tm_hour timeinfo) 0) as [Hzero|Hnz].
    + apply Hrun, Hline.
      * subst hour12. rewrite Hzero. reflexivity.
      * now replace (tm_hour timeinfo <? 12) with true
          by (symmetry; apply Z.ltb_lt; lia).
    + apply Hrun, Hline.
      * subst hour12; div_mod_lia.
      * now replace (tm_hour timeinfo <? 12) with true
          by (symmetry; apply Z.ltb_lt; lia).
Qed.

(** 17:05 is " 505PM  ". *)
Lemma display_time_12h_packets_witness :
  display_time_12h all_succeed (Some 1%nat) sample_time false []
  = (tt, [ESpiTransmit 1 [32; 32; 53; 48; 53; 80; 77; 32; 32] ESP_OK;
          ESpiTransmit 1 [97; 0] ESP_OK]).
Proof.
  refine (proj1 (display_time_12h_packets all_succeed 1%nat sample_time false [] _ _));
    simpl; lia.
Defined.

(** X18. [display_date], for a day of the month, a month and a year up to
    9999 and a non-null handle: one DCRAM packet with the two digits of
    the day, the two digits of the month counted from 1 and the four
    digits of the year, then the dots of digits 1 and 3 on. *)
Theorem display_date_packets E h timeinfo w :
  1 <= tm_mday timeinfo <= 31 ->
  0 <= tm_mon timeinfo <= 11 ->
  0 <= tm_year timeinfo + 1900 <= 9999 ->
  let month := tm_mon timeinfo + 1 in
  let year := tm_year timeinfo + 1900 in
  let line := [48 + tm_mday timeinfo / 10; 48 + tm_mday timeinfo mod 10;
               48 + month / 10; 48 + month mod 10;
               48 + year / 1000; 48 + (year / 100) mod 10;
               48 + (year / 10) mod 10; 48 + year mod 10] in
  let w1 := w ++ [ESpiTransmit h (32 :: line)
                    (spi_device_transmit_result E w h (32 :: line))] in
  let w2 := w1 ++ [ESpiTransmit h [97; 1]
                     (spi_device_transmit_result E w1 h [97; 1])] in
  display_date E (Some h) timeinfo w
  = (tt, w2 ++ [ESpiTransmit h [99; 1]
                  (spi_device_transmit_result E w2 h [99; 1])]).
Proof.
  intros Hd Hm Hy month year line w1 w2.
  unfold display_date.
  rewrite !format_02d by lia. rewrite format_04d by lia.
  change (snprintf 9 _) with (line ++ [0]).
  cbv zeta. unfold Bind at 1.
  rewrite show_string_full_line;
    [|reflexivity|subst line month year; repeat constructor; div_mod_lia].
  fold w1. unfold Bind, Return.
  rewrite (set_dot_transmits E h 1) by lia; fold w2.
  rewrite (set_dot_transmits E h 3) by lia. reflexivity.
Qed.

(** 30 January 2024 is "30012024". *)
Lemma display_date_packets_witness :
  display_date all_succeed (Some 1%nat) sample_time []
  = (tt, [ESpiTransmit 1 [32; 51; 48; 48; 49; 50; 48; 50; 52] ESP_OK;
          ESpiTransmit 1 [97; 1] ESP_OK; ESpiTransmit 1 [99; 1] ESP_OK]).
Proof.
  apply (display_date_packets all_succeed 1%nat sample_time []); simpl; lia.
Defined.

(** ** The clock example: the loop's variables *)

Lemma bind_run {A B : Type} (m : M A) (k : A -> M B) w :
  Bind m k w = k (fst (m w)) (snd (m w)).
Proof. unfold Bind. now destruct (m w). Qed.

(** The variables after a round depend on the variables before it only:
    not on the time shown, the handle, or what the bus answered. *)
Lemma clock_round_state E vfd_handle timeinfo st w :
  fst (clock_round E vfd_handle timeinfo st w) = next_clock_state st.
Proof.
  unfold clock_round, next_clock_state. cbv zeta.
  destruct (mode_counter st + 1 >=? 20); now rewrite !bind_run.
Qed.

Lemma clock_rounds_state E vfd_handle times n : forall k st w,
  fst (clock_rounds E vfd_handle times k n st w) = Nat.iter n next_clock_state st.
Proof.
  induction n as [|n IH]; intros k st w; [reflexivity|].
  cbn [clock_rounds]. unfold Bind.
  pose proof (clock_round_state E vfd_handle (times k) st w) as Hst.
  destruct (clock_round E vfd_handle (times k) st w) as [st' w'].
  cbn [fst] in Hst. subst st'. rewrite IH.
  symmetry. apply Nat.iter_succ_r.
Qed.

(** X19. The clock's loop changes the display mode every 20 rounds and
    goes through its three modes in turn: from a round counter of 0, 20
    rounds later the mode is the next one (date wraps to 24-hour time),
    the counter is 0 again and the blink flag is as before; and from any
    state of the loop, 60 rounds later all three variables are back. This
    holds whatever is shown and whatever the bus answers. *)
Theorem clock_mode_cycle E vfd_handle times k st w :
  0 <= current_mode st <= 2 ->
  0 <= mode_counter st < 20 ->
  fst (clock_rounds E vfd_handle times k 60 st w) = st
  /\ (mode_counter st = 0 ->
      fst (clock_rounds E vfd_handle times k 20 st w)
      = {| current_mode := (current_mode st + 1) mod DISPLAY_MODE_MAX;
           mode_counter := 0;
           blink_state := blink_state st |}).
Proof.
  intros Hmode Hcount. rewrite !clock_rounds_state.
  destruct st as [mode counter blink]. cbn [current_mode mode_counter blink_state] in *.
  assert (Hm : mode = 0 \/ mode = 1 \/ mode = 2) by lia.
  split.
  - assert (Hn : exists n, (n < 20)%nat /\ counter = Z.of_nat n)
      by (exists (Z.to_nat counter); lia).
    destruct Hn as (n & Hn & ->). clear Hcount.
    do 20 (destruct n as [|n];
           [destruct Hm as [->|[->| ->]]; destruct blink; reflexivity|]).
    lia.
  - intros ->.
    destruct Hm as [->|[->| ->]]; destruct blink; reflexivity.
Qed.

Lemma clock_mode_cycle_witness :
  fst (clock_rounds all_succeed (Some 1%nat) (fun _ => sample_time) 0 60
         clock_initial_state [])
  = clock_initial_state.
Proof.
  refine (proj1 (clock_mode_cycle all_succeed (Some 1%nat) (fun _ => sample_time) 0
                   clock_initial_state [] _ _));
    unfold clock_initial_state, DISPLAY_MODE_TIME_24H; simpl; lia.
Defined.

(** X20. At the start of every round the clock switches off the dots of
    all eight digits: with a non-null handle the eight dot-off packets go
    out in order whatever the transport answers, where the dot loop of
    [ftb8md_clear_display] would stop at the first failure. *)
Theorem clear_previous_dots_never_stops E h w :
  transmitted (snd (clear_previous_dots E (Some h) 0 8 w))
  = transmitted w ++ map (fun digit => dot_packet digit false) [0; 1; 2; 3; 4; 5; 6; 7].
Proof.
  cbn [clear_previous_dots]. rewrite !bind_run.
  repeat (rewrite set_dot_transmits by lia; cbn [fst snd]).
  cbn [Return snd]. rewrite !transmitted_app. cbn [transmitted map].
  now rewrite <- !app_assoc.
Qed.

(** ** The basic example: scrolling *)

Lemma strlen_skipn s : forall i,
  (i <= strlen s)%nat -> strlen (skipn i s) = (strlen s - i)%nat.
Proof.
  induction s as [|c s IH]; intros [|i] Hi; try reflexivity.
  - now rewrite Nat.sub_0_r.
  - simpl in Hi |- *. destruct (c =? 0); [lia|]. apply IH. lia.
Qed.

Lemma strlen_prefix_no_nul s : forall n,
  (n <= strlen s)%nat -> Forall (fun c => c <> 0) (firstn n s).
Proof.
  induction s as [|c s IH]; intros [|n] Hn; simpl; try constructor.
  - simpl in Hn. destruct (Z.eqb_spec c 0); [lia|assumption].
  - simpl in Hn. destruct (c =? 0); [lia|]. apply IH. lia.
Qed.

Lemma Forall_skipn_keep {A} (P : A -> Prop) (l : list A) n :
  Forall P l -> Forall P (skipn n l).
Proof.
  intros H; revert n; induction H as [|x l Hx Hl IH]; intros [|n]; simpl; auto.
Qed.

(** A window of eight characters that lies before the NUL is copied whole
    by [strncpy]. *)
Lemma strncpy_window s i :
  (i + 8 <= strlen s)%nat ->
  strncpy (skipn i s) 8 = firstn 8 (skipn i s)
  /\ List.length (firstn 8 (skipn i s)) = 8%nat
  /\ Forall (fun c => c <> 0) (firstn 8 (skipn i s)).
Proof.
  intros Hi.
  assert (Hlen : strlen (skipn i s) = (strlen s - i)%nat)
    by (apply strlen_skipn; lia).
  pose proof (strlen_le_length (skipn i s)) as Hle.
  split; [|split].
  - unfold strncpy. rewrite Hlen.
    replace (Nat.min (strlen s - i) 8) with 8%nat by lia.
    simpl. now rewrite app_nil_r.
  - rewrite length_firstn. lia.
  - apply strlen_prefix_no_nul. lia.
Qed.

Lemma scroll_from_windows E h s n : forall i w,
  Forall is_byte s ->
  (i + n + 7 <= strlen s)%nat ->
  transmitted (snd (scroll_from E (Some h) s i n w))
  = transmitted w ++ map (fun j => 32 :: firstn 8 (skipn j s)) (seq i n).
Proof.
  induction n as [|n IH]; intros i w Hs Hi.
  - simpl. now rewrite app_nil_r.
  - cbn [scroll_from seq map]. cbv zeta. rewrite !bind_run.
    destruct (strncpy_window s i ltac:(lia)) as (Hcpy & Hlen & Hnz).
    rewrite Hcpy.
    rewrite show_string_full_line; [|exact Hlen|].
    + cbn [fst snd vTaskDelay_ms emit].
      rewrite IH by (assumption || lia).
      rewrite !transmitted_app. cbn [transmitted].
      now rewrite app_nil_r, <- app_assoc.
    + apply Forall_forall. intros c Hc.
      assert (Hb : is_byte c).
      { eapply Forall_forall; [|exact Hc].
        apply Forall_firstn_keep, Forall_skipn_keep, Hs. }
      assert (c <> 0) by (eapply Forall_forall in Hnz; eauto).
      unfold is_byte in Hb. lia.
Qed.

(** X21. The scrolling loop of the basic example shows every window of
    eight consecutive characters of its text once, from left to right,
    each as a full line from digit 0: a text of [L >= 7] characters gives
    [L - 7] transmissions, so a text of exactly 7 characters is never
    shown. *)
Theorem scroll_shows_every_window E h scroll_text w :
  Forall is_byte scroll_text ->
  (7 <= strlen scroll_text)%nat ->
  Z.of_nat (strlen scroll_text) < 2 ^ 32 ->
  transmitted (snd (scroll_text_demo E (Some h) scroll_text w))
  = transmitted w
    ++ map (fun i => 32 :: firstn 8 (skipn i scroll_text))
         (seq 0 (strlen scroll_text - 7)).
Proof.
  intros Hs Hlen Hmax. unfold scroll_text_demo. cbv zeta.
  rewrite Z.mod_small by lia.
  replace (Z.to_nat (Z.of_nat (strlen scroll_text) - 7))
    with (strlen scroll_text - 7)%nat by lia.
  apply scroll_from_windows; [exact Hs|lia].
Qed.

(** The text of the example: 40 characters, 33 windows, the first one
    "   FUTAB" and the last one " DEMO   ". *)
Lemma scroll_shows_every_window_witness :
  let sent := transmitted (snd (scroll_text_demo all_succeed (Some 1%nat)
                                  basic_scroll_text [])) in
  List.length sent = 33%nat
  /\ hd [] sent = [32; 32; 32; 32; 70; 85; 84; 65; 66]
  /\ last sent [] = [32; 32; 68; 69; 77; 79; 32; 32; 32].
Proof.
  intros sent. subst sent.
  rewrite (scroll_shows_every_window all_succeed 1%nat basic_scroll_text []).
  - repeat split.
  - unfold is_byte. repeat constructor; discriminate.
  - simpl. lia.
  - simpl. lia.
Defined.
